(** * srm: a recoverable [rm]

    A shallow embedding of [srm.go] (argument classifier, interaction
    helper, destination resolver and the deletion loop of [main]) and of
    the helpers [In], [IsReadOnly] and [IsDir], together with the
    properties of the specification that concern them.

    Go strings are byte sequences: they are modelled by [string] (a list
    of [ascii] bytes).  Go's [int] lengths are modelled in [Z]. *)

From Stdlib Require Import List String Ascii ZArith Bool Lia DecimalString.
Import ListNotations.
Local Open Scope string_scope.
Local Open Scope Z_scope.

Set Implicit Arguments.

(** ** The parts of Go's standard library that the program calls *)

Module Go.

(** [len(s)] of a string, and of a slice. *)
Definition len (s : string) : Z := Z.of_nat (String.length s).
Definition lenSlice {A} (l : list A) : Z := Z.of_nat (List.length l).

(** [s[i:]]: [None] stands for the run-time panic "slice bounds out of
    range", raised unless [0 <= i <= len(s)]. *)
Definition sliceFrom (s : string) (i : Z) : option string :=
  if (0 <=? i) && (i <=? len s)
  then Some (substring (Z.to_nat i) (String.length s - Z.to_nat i) s)
  else None.

(** [l[i]] on a slice; [None] is the "index out of range" panic. *)
Definition index {A} (l : list A) (i : Z) : option A :=
  if (0 <=? i) && (i <? lenSlice l) then nth_error l (Z.to_nat i) else None.

(** [strings.Split(s, sep)] for a separator of one byte: the pieces of
    [s] between the occurrences of [sep]; never empty ([Split("", sep)]
    is the one-element slice holding the empty string). *)
Fixpoint Split (s : string) (sep : ascii) : list string :=
  match s with
  | EmptyString => [EmptyString]
  | String c s' =>
      if Ascii.eqb c sep then EmptyString :: Split s' sep
      else match Split s' sep with
           | [] => [String c EmptyString]
           | piece :: pieces => String c piece :: pieces
           end
  end.

(** [strings.TrimRight(s, cutset)] for a cutset of one ASCII byte: all
    the trailing occurrences of the byte are removed. *)
Fixpoint TrimRight (s : string) (cut : ascii) : string :=
  match s with
  | EmptyString => EmptyString
  | String c s' =>
      match TrimRight s' cut with
      | EmptyString => if Ascii.eqb c cut then EmptyString else String c EmptyString
      | t => String c t
      end
  end.

(** The ASCII path of [strings.ToLower]: the bytes ['A'..'Z'] are
    shifted by ['a' - 'A'], every other byte is kept. *)
Definition lowerByte (c : ascii) : ascii :=
  let n := nat_of_ascii c in
  if ((65 <=? n) && (n <=? 90))%nat then ascii_of_nat (n + 32) else c.

Fixpoint lowerASCII (s : string) : string :=
  match s with
  | EmptyString => EmptyString
  | String c s' => String (lowerByte c) (lowerASCII s')
  end.

(** [c < utf8.RuneSelf] for every byte of [s]. *)
Fixpoint isASCII (s : string) : bool :=
  match s with
  | EmptyString => true
  | String c s' => (nat_of_ascii c <? 128)%nat && isASCII s'
  end.

(** [fmt.Sprintf("%d", n)]. *)
Definition itoa (n : Z) : string := NilZero.string_of_int (Z.to_int n).

(** [os.FileMode] is a [uint32]; [ModeDir] is its top bit and [ModePerm]
    the nine permission bits. *)
Definition FileMode := Z.
Definition ModeDir : FileMode := Z.shiftl 1 31.
Definition ModePerm : FileMode := 511. (* 0777 *)
Definition FileMode_IsDir (m : FileMode) : bool := negb (Z.land m ModeDir =? 0).
Definition FileMode_Perm (m : FileMode) : FileMode := Z.land m ModePerm.

(** A Go [error], by its message. *)
Definition error := string.

End Go.

(** ** util.go *)

(** [In(needle, haystack)]: linear search. *)
Fixpoint In (needle : string) (haystack : list string) : bool :=
  match haystack with
  | [] => false
  | i :: rest => if String.eqb needle i then true else In needle rest
  end.

(** ** srm.go: constants *)

Definition VALIDARGS : list string :=
  ["-h"; "--help"; "-P"; "-f"; "-i"; "-I"; "-r"; "-R"; "-d"; "-v"].

(** The affirmative answers of [getUserConfirmation]. *)
Definition affirmative : list string :=
  ["y"; "yes"; "yea"; "yeah"; "da"; "si"; "letsgo"].

(** ** srm.go: the loop of [parseArgs]

    [parseLoop args flags files seenDoubleDash] runs the [for ... range
    args] loop from the given values of the three local variables. *)
Fixpoint parseLoop (args flags files : list string) (seenDoubleDash : bool)
  : list string * list string :=
  match args with
  | [] => (flags, files)
  | arg :: rest =>
      if String.eqb arg "--" then parseLoop rest flags files true
      else if In arg VALIDARGS && negb seenDoubleDash
           then parseLoop rest (flags ++ [arg]) files seenDoubleDash
           else parseLoop rest flags (files ++ [arg]) seenDoubleDash
  end.

(** ** The world the program runs in

    What the operating system answers is a parameter of the model: the
    file system with [os.Stat] and [os.Rename], the home directory of
    [os.UserHomeDir], and the Unicode path of [strings.ToLower] (taken
    for strings that hold a byte outside ASCII). *)

Class Runtime := {
  FS : Type;
  os_Stat : FS -> string -> Go.FileMode + Go.error;
  os_Rename : FS -> string -> string -> FS;
  os_UserHomeDir : string + Go.error;
  unicode_ToLower : string -> string
}.

(** What one call of [fmt.Scanln(&s)] leaves in [s]: a token, or nothing
    (end of input, an empty line, a failed read), in which case [s] keeps
    its zero value.  The error that [Scanln] returns is dropped by the
    program. *)
Inductive scanResult :=
| Token (tok : string)
| ReadFailure.

Definition stored (r : scanResult) : string :=
  match r with Token tok => tok | ReadFailure => "" end.

(** The calls the program makes, in order. *)
Inductive event :=
| EvPrint (s : string)
| EvScanln (r : scanResult)
| EvStat (path : string)
| EvRename (oldpath newpath : string).

(** How a computation ends: it returns, the process exits through
    [os.Exit], or it panics. *)
Inductive outcome (A : Type) :=
| Done (a : A)
| Exited (code : Z)
| Panicked.
Arguments Done {A} a.
Arguments Exited {A} code.
Arguments Panicked {A}.

(** The status the shell sees. *)
Definition exitStatus {A} (r : outcome A) : Z :=
  match r with Done _ => 0 | Exited code => code | Panicked => 2 end.

Definition nl : string := String (ascii_of_nat 10) EmptyString.

Section Program.
Context {RT : Runtime}.

Record World := mkWorld {
  fs : FS;
  stdin : list scanResult;
  log : list event
}.

Definition M (A : Type) : Type := World -> outcome A * World.

Definition ret {A} (a : A) : M A := fun w => (Done a, w).

Definition bind {A B} (m : M A) (k : A -> M B) : M B :=
  fun w => match m w with
           | (Done a, w') => k a w'
           | (Exited code, w') => (Exited code, w')
           | (Panicked, w') => (Panicked, w')
           end.

Notation "x <- c1 ;; c2" := (bind c1 (fun x => c2))
  (at level 61, c1 at next level, right associativity).
Notation "' pat <- c1 ;; c2" := (bind c1 (fun x => match x with pat => c2 end))
  (at level 61, pat pattern, c1 at next level, right associativity).
Notation "c1 ;; c2" := (bind c1 (fun _ => c2))
  (at level 61, right associativity).

Definition record (e : event) (w : World) : World :=
  mkWorld (fs w) (stdin w) (log w ++ [e]).

Definition os_Exit {A} (code : Z) : M A := fun w => (Exited code, w).

Definition panic {A} : M A := fun w => (Panicked, w).

(** A Go operation that panics when it is out of range. *)
Definition orPanic {A} (o : option A) : M A :=
  match o with Some a => ret a | None => panic end.

Definition fmt_Print (s : string) : M unit :=
  fun w => (Done tt, record (EvPrint s) w).

Definition fmt_Println (s : string) : M unit := fmt_Print (s ++ nl).

Definition fmt_Scanln : M string :=
  fun w => match stdin w with
           | [] => (Done "", record (EvScanln ReadFailure) w)
           | r :: rest =>
               (Done (stored r),
                mkWorld (fs w) rest (log w ++ [EvScanln r]))
           end.

Definition Stat (path : string) : M (Go.FileMode + Go.error) :=
  fun w => (Done (os_Stat (fs w) path), record (EvStat path) w).

(** [os.Rename]; the program drops the error it returns. *)
Definition Rename (oldpath newpath : string) : M unit :=
  fun w => (Done tt,
            mkWorld (os_Rename (fs w) oldpath newpath) (stdin w)
                    (log w ++ [EvRename oldpath newpath])).

Definition ToLower (s : string) : string :=
  if Go.isASCII s then Go.lowerASCII s else unicode_ToLower s.

(** ** util.go: the two accessors *)

Definition IsReadOnly (filepath : string) : M (bool * option Go.error) :=
  r <- Stat filepath ;;
  match r with
  | inr err => ret (false, Some err)
  | inl mode => ret (Z.land (Go.FileMode_Perm mode) 128 =? 0, None) (* 0200 *)
  end.

Definition IsDir (filepath : string) : M (bool * option Go.error) :=
  r <- Stat filepath ;;
  match r with
  | inr err => ret (false, Some err)
  | inl mode => ret (Go.FileMode_IsDir mode, None)
  end.

(** ** srm.go *)

Definition usage : M unit :=
  fmt_Println "Usage:" ;;
  fmt_Println "    srm [-f | -i] [-dIRrv] <filepath> <...>" ;;
  fmt_Println "Note:" ;;
  fmt_Println "    Intended to replace `rm` via a shell alias".

Definition getUserConfirmation (msg : string) : M bool :=
  fmt_Print msg ;;
  interactiveResponse <- fmt_Scanln ;;
  let interactiveResponse := ToLower interactiveResponse in
  if In interactiveResponse affirmative then ret true else ret false.

(** [args] is [os.Args[1:]]. *)
Definition parseArgs (args : list string) : M (list string * list string) :=
  if Go.lenSlice args <? 1 then usage ;; os_Exit 1
  else ret (parseLoop args [] [] false).

Definition getTargetRmDir : M string :=
  match os_UserHomeDir with
  | inr _ => fmt_Println "Could not get users home dir" ;; os_Exit 1
  | inl homeDir =>
      let path := homeDir ++ "/.Trash" in
      r <- Stat path ;;
      match r with
      | inl _ => ret path
      | inr _ => ret "/tmp"
      end
  end.

(** The booleans [main] derives from the flag slice. *)
Record Options := mkOptions {
  helpFlag : bool;
  forceFlag : bool;
  interactiveFlag : bool;
  nonintrusiveInteractiveFlag : bool;
  recursiveFlag : bool;
  directoryFlag : bool;
  verboseFlag : bool
}.

Definition readFlags (flags : list string) : Options :=
  {| helpFlag := In "-h" flags || In "--help" flags;
     forceFlag := In "-f" flags;
     interactiveFlag := In "-i" flags;
     nonintrusiveInteractiveFlag := In "-I" flags;
     recursiveFlag := In "-r" flags || In "-R" flags;
     directoryFlag := In "-d" flags;
     verboseFlag := In "-v" flags |}.

(** The body of the loop of [main], in three parts.

    Lines 157-174: the directory check.  The result [false] is the
    [continue] of a declined "recursively remove" prompt. *)
Definition directoryCheck (o : Options) (filepath : string) : M bool :=
  '(isDir, err) <- IsDir filepath ;;
  match err with
  | Some e => fmt_Println e ;; os_Exit 1
  | None =>
      if isDir && negb (recursiveFlag o) && negb (directoryFlag o)
      then fmt_Print ("srm: " ++ filepath ++ ": is a directory" ++ nl) ;;
           os_Exit 1
      else if isDir && nonintrusiveInteractiveFlag o && recursiveFlag o
           then getUserConfirmation ("recursively remove " ++ filepath ++ "?")
           else ret true
  end.

(** Lines 176-178: the display name and the destination. *)
Definition displayName (filepath : string) : M string :=
  let splitFilePath := Go.Split filepath "/" in
  orPanic (Go.index splitFilePath (Go.lenSlice splitFilePath - 1)).

(** Lines 190-193: the trailing separators are stripped. *)
Definition stripTrailing (filepath : string) : M string :=
  last <- orPanic (Go.sliceFrom filepath (Go.len filepath - 1)) ;;
  if String.eqb last "/" then ret (Go.TrimRight filepath "/")
  else ret filepath.

(** Lines 176-193.  The result [None] is the [continue] of a declined
    "remove" prompt; otherwise the stripped path, the display name and the
    destination. *)
Definition confirmAndStrip (o : Options) (targetDir filepath : string)
  : M (option (string * string * string)) :=
  filename <- displayName filepath ;;
  let dest := targetDir ++ "/" ++ filename in
  go <- (if interactiveFlag o
         then getUserConfirmation ("remove " ++ filepath ++ "?")
         else ret true) ;;
  if negb go then ret None
  else
    filepath <- stripTrailing filepath ;;
    ret (Some (filepath, filename, dest)).

(** Lines 195-210: the read-only check, the verbose line and the move. *)
Definition checkAndMove (o : Options) (filepath filename dest : string)
  : M unit :=
  '(fileIsReadOnly, err) <- IsReadOnly filepath ;;
  match err with
  | Some e => fmt_Println e ;; os_Exit 1
  | None =>
      if fileIsReadOnly && negb (forceFlag o)
      then fmt_Println "File is read-only" ;; os_Exit 1
      else
        (if verboseFlag o then fmt_Println filename else ret tt) ;;
        Rename filepath dest
  end.

Definition loopBody (o : Options) (targetDir filepath : string) : M unit :=
  go <- directoryCheck o filepath ;;
  if negb go then ret tt
  else
    r <- confirmAndStrip o targetDir filepath ;;
    match r with
    | None => ret tt
    | Some (filepath, filename, dest) => checkAndMove o filepath filename dest
    end.

(** [for _, filepath := range files]. *)
Fixpoint rangeFiles (o : Options) (targetDir : string) (files : list string)
  : M unit :=
  match files with
  | [] => ret tt
  | filepath :: rest =>
      loopBody o targetDir filepath ;; rangeFiles o targetDir rest
  end.

(** Lines 147-153: the one prompt of [-I] for more than three files. *)
Definition batchPrompt (o : Options) (filesCount : Z) : M unit :=
  if nonintrusiveInteractiveFlag o && (filesCount >? 3)
  then
    ok <- getUserConfirmation ("remove " ++ Go.itoa filesCount ++ " files?") ;;
    if negb ok then os_Exit 0 else ret tt
  else ret tt.

(** Lines 147-211: the deletion engine, that is the batch prompt and then
    the loop over the operands. *)
Definition engine (o : Options) (targetDir : string) (files : list string)
  : M unit :=
  let filesCount := Go.lenSlice files in
  batchPrompt o filesCount ;;
  rangeFiles o targetDir files.

(** Lines 119-211: [main] once the destination and the arguments are
    known. *)
Definition run (targetDir : string) (flags files : list string) : M unit :=
  let o := readFlags flags in
  if helpFlag o then usage ;; os_Exit 0
  else engine o targetDir files.

Definition main (args : list string) : M unit :=
  targetDir <- getTargetRmDir ;;
  '(flags, files) <- parseArgs args ;;
  run targetDir flags files.

End Program.

Arguments World {RT}.
Arguments M {RT} A.

(** ** Vocabulary of the statements *)

(** What the next [fmt.Scanln] will read. *)
Definition nextScan `{Runtime} (w : World) : scanResult :=
  match stdin w with
  | [] => ReadFailure
  | r :: _ => r
  end.

(** The world once [msg] has been printed and one answer read. *)
Definition prompted `{Runtime} (msg : string) (w : World) : World :=
  mkWorld (fs w) (tl (stdin w)) (log w ++ [EvPrint msg; EvScanln (nextScan w)]).

(** The answer that [getUserConfirmation] computes from the next read. *)
Definition nextAnswer `{Runtime} (w : World) : bool :=
  In (ToLower (stored (nextScan w))) affirmative.

(** The world once the events [es] have been added to its log. *)
Definition logged `{Runtime} (es : list event) (w : World) : World :=
  mkWorld (fs w) (stdin w) (log w ++ es).

(** [sub] occurs in [s]. *)
Definition Contains (sub s : string) : Prop :=
  exists before after, s = before ++ sub ++ after.

(** The message of the directory rejection (line 165). *)
Definition rejection (filepath : string) : string :=
  "srm: " ++ filepath ++ ": is a directory" ++ nl.

(** The world once the read-only check has let [filepath] through and it
    has been renamed to [dest]. *)
Definition moved `{Runtime} (o : Options) (filepath filename dest : string)
  (w : World) : World :=
  mkWorld (os_Rename (fs w) filepath dest) (stdin w)
          (log w ++ [EvStat filepath]
                 ++ (if verboseFlag o then [EvPrint (filename ++ nl)] else [])
                 ++ [EvRename filepath dest]).

(** The last piece of a path, and the last byte of a string. *)
Definition lastSegment (filepath : string) : string :=
  List.last (Go.Split filepath "/") "".

Fixpoint lastByte (s : string) : string :=
  match s with
  | EmptyString => EmptyString
  | String c EmptyString => s
  | String _ s' => lastByte s'
  end.

(** The two classes of tokens that stand before the marker. *)
Definition isFlag (arg : string) : bool := In arg VALIDARGS.
Definition notMarker (arg : string) : bool := negb (String.eqb arg "--").

(** [c] occurs in [s]. *)
Fixpoint hasByte (c : ascii) (s : string) : bool :=
  match s with
  | EmptyString => false
  | String d s' => Ascii.eqb d c || hasByte c s'
  end.

(** The string of [k] bytes [c]. *)
Fixpoint repeatByte (c : ascii) (k : nat) : string :=
  match k with
  | O => EmptyString
  | S k' => String c (repeatByte c k')
  end.

(** The four lines that [usage] prints. *)
Definition usageLines : list event :=
  [EvPrint ("Usage:" ++ nl);
   EvPrint ("    srm [-f | -i] [-dIRrv] <filepath> <...>" ++ nl);
   EvPrint ("Note:" ++ nl);
   EvPrint ("    Intended to replace `rm` via a shell alias" ++ nl)].

(** The renames and the reads among a list of events. *)
Definition isRename (e : event) : bool :=
  match e with EvRename _ _ => true | _ => false end.

Definition isScanln (e : event) : bool :=
  match e with EvScanln _ => true | _ => false end.

(** The flags and the operands that [parseArgs] finds in [args]. *)
Definition flagsOf (args : list string) : list string :=
  fst (parseLoop args [] [] false).

Definition filesOf (args : list string) : list string :=
  snd (parseLoop args [] [] false).

(** ** A small concrete world, to run the program on

    The file system is an association list from paths to modes; a path
    that is absent fails to [stat], and [rename] moves the entry of
    [oldpath], if there is one, to [newpath]. *)

Module Demo.

Definition Files := list (string * Go.FileMode).

Fixpoint lookup (files : Files) (path : string) : option Go.FileMode :=
  match files with
  | [] => None
  | (p, mode) :: rest => if String.eqb p path then Some mode else lookup rest path
  end.

Definition remove (files : Files) (path : string) : Files :=
  filter (fun entry => negb (String.eqb (fst entry) path)) files.

Definition stat (files : Files) (path : string) : Go.FileMode + Go.error :=
  match lookup files path with
  | Some mode => inl mode
  | None => inr ("stat " ++ path ++ ": no such file or directory")
  end.

Definition rename (files : Files) (oldpath newpath : string) : Files :=
  match lookup files oldpath with
  | Some mode => (newpath, mode) :: remove (remove files oldpath) newpath
  | None => files
  end.

#[export] Instance runtime : Runtime := {|
  FS := Files;
  os_Stat := stat;
  os_Rename := rename;
  os_UserHomeDir := inl "/home/u";
  unicode_ToLower := fun s => s
|}.

(** A regular file [rw-r--r--], a read-only file [r--r--r--] and a
    directory [drwxr-xr-x].  On the disk below the directory [foo] also
    answers to the path [foo/]. *)
Definition regular : Go.FileMode := 420.
Definition readonly : Go.FileMode := 292.
Definition directory : Go.FileMode := Go.ModeDir + 493.

Definition disk : Files :=
  [("a.txt", regular); ("b.txt", regular); ("ro.txt", readonly);
   ("foo", directory); ("foo/", directory); ("/tmp", directory)].

Definition mkW (files : Files) (answers : list scanResult)
  (events : list event) : @World runtime :=
  @mkWorld runtime files answers events.

Definition world (answers : list scanResult) : @World runtime :=
  mkW disk answers [].

End Demo.

(** ** The earlier revision of srm.go

    The second source file is an earlier revision of srm.go: it does not
    know [-I] and [-v], has the prompt of [-i] inline in [main], and
    tests the error of [IsDir] only inside the branch taken when [IsDir]
    answers true.  [getTargetRmDir] and the helpers of util.go are the
    ones above. *)

Module Earlier.

Definition VALIDARGS : list string :=
  ["-h"; "--help"; "-P"; "-f"; "-i"; "-r"; "-R"; "-d"].

Fixpoint parseLoop (args flags files : list string) (seenDoubleDash : bool)
  : list string * list string :=
  match args with
  | [] => (flags, files)
  | arg :: rest =>
      if String.eqb arg "--" then parseLoop rest flags files true
      else if In arg VALIDARGS && negb seenDoubleDash
           then parseLoop rest (flags ++ [arg]) files seenDoubleDash
           else parseLoop rest flags (files ++ [arg]) seenDoubleDash
  end.

Section Revision.
Context {RT : Runtime}.

Notation "x <- c1 ;; c2" := (bind c1 (fun x => c2))
  (at level 61, c1 at next level, right associativity).
Notation "' pat <- c1 ;; c2" := (bind c1 (fun x => match x with pat => c2 end))
  (at level 61, pat pattern, c1 at next level, right associativity).
Notation "c1 ;; c2" := (bind c1 (fun _ => c2))
  (at level 61, right associativity).

Definition usage : M unit :=
  fmt_Println "Usage:" ;;
  fmt_Println "    srm [-f | -i] [-dRr] <filepath> <...>" ;;
  fmt_Println "Note:" ;;
  fmt_Println "    Intended to replace `rm` via a shell alias".

Definition parseArgs (args : list string) : M (list string * list string) :=
  if Go.lenSlice args <? 1 then usage ;; os_Exit 1
  else ret (parseLoop args [] [] false).

(** Lines 127-137: the error of [IsDir] is looked at only when [IsDir]
    answered true. *)
Definition directoryCheck (recursiveFlag directoryFlag : bool)
  (filepath : string) : M unit :=
  '(isDir, err) <- IsDir filepath ;;
  if isDir
  then match err with
       | Some e => fmt_Println e ;; os_Exit 1
       | None =>
           if negb recursiveFlag && negb directoryFlag
           then fmt_Print ("srm: " ++ filepath ++ ": is a directory" ++ nl) ;;
                os_Exit 1
           else ret tt
       end
  else ret tt.

(** Lines 143-152: the prompt of [-i]; [false] is the [continue]. *)
Definition confirm (interactiveFlag : bool) (filepath : string) : M bool :=
  if interactiveFlag
  then
    fmt_Print ("remove " ++ filepath ++ "?" ++ nl) ;;
    interactiveResponse <- fmt_Scanln ;;
    let interactiveResponse := ToLower interactiveResponse in
    if negb (In interactiveResponse affirmative) then ret false else ret true
  else ret true.

(** Lines 161-172. *)
Definition checkAndMove (forceFlag : bool) (filepath dest : string) : M unit :=
  '(fileIsReadOnly, err) <- IsReadOnly filepath ;;
  match err with
  | Some e => fmt_Println e ;; os_Exit 1
  | None =>
      if fileIsReadOnly && negb forceFlag
      then fmt_Println "File is read-only" ;; os_Exit 1
      else Rename filepath dest
  end.

Definition loopBody (forceFlag interactiveFlag recursiveFlag directoryFlag : bool)
  (targetDir filepath : string) : M unit :=
  directoryCheck recursiveFlag directoryFlag filepath ;;
  filename <- displayName filepath ;;
  let dest := targetDir ++ "/" ++ filename in
  go <- confirm interactiveFlag filepath ;;
  if negb go then ret tt
  else
    filepath <- stripTrailing filepath ;;
    checkAndMove forceFlag filepath dest.

Fixpoint rangeFiles (forceFlag interactiveFlag recursiveFlag directoryFlag : bool)
  (targetDir : string) (files : list string) : M unit :=
  match files with
  | [] => ret tt
  | filepath :: rest =>
      loopBody forceFlag interactiveFlag recursiveFlag directoryFlag
               targetDir filepath ;;
      rangeFiles forceFlag interactiveFlag recursiveFlag directoryFlag
                 targetDir rest
  end.

Definition main (args : list string) : M unit :=
  targetDir <- getTargetRmDir ;;
  '(flags, files) <- parseArgs args ;;
  let helpFlag := In "-h" flags || In "--help" flags in
  if helpFlag then usage ;; os_Exit 0
  else
    let forceFlag := In "-f" flags in
    let interactiveFlag := In "-i" flags in
    let recursiveFlag := In "-r" flags || In "-R" flags in
    let directoryFlag := In "-d" flags in
    rangeFiles forceFlag interactiveFlag recursiveFlag directoryFlag
               targetDir files.

End Revision.

End Earlier.

(** ** Runs of the program on the small world *)

Example parseLoop_marker_then_flag :
  parseLoop ["--"; "-f"] [] [] false = ([], ["-f"]).
Proof. reflexivity. Qed.

Example Split_examples :
  Go.Split "foo/" "/" = ["foo"; ""] /\ Go.Split "a/b/c" "/" = ["a"; "b"; "c"]
  /\ Go.Split "" "/" = [""] /\ Go.Split "/" "/" = [""; ""].
Proof. repeat split. Qed.

Example TrimRight_examples :
  Go.TrimRight "foo//" "/" = "foo" /\ Go.TrimRight "a/b/" "/" = "a/b"
  /\ Go.TrimRight "///" "/" = "" /\ Go.TrimRight "x" "/" = "x".
Proof. repeat split. Qed.

Example itoa_examples : Go.itoa 5 = "5" /\ Go.itoa 0 = "0" /\ Go.itoa 12 = "12".
Proof. repeat split. Qed.

Example modes :
  Go.FileMode_IsDir Demo.directory = true /\ Go.FileMode_IsDir Demo.regular = false
  /\ (Z.land (Go.FileMode_Perm Demo.readonly) 128 =? 0) = true
  /\ (Z.land (Go.FileMode_Perm Demo.regular) 128 =? 0) = false.
Proof. repeat split. Qed.

(** [srm -v a.txt]: the line [a.txt] is printed and the file moves to
    [/tmp/a.txt]. *)
Example run_verbose :
  main ["-v"; "a.txt"] (Demo.world []) =
    (Done tt,
     Demo.mkW (Demo.rename Demo.disk "a.txt" "/tmp/a.txt") []
       [EvStat "/home/u/.Trash"; EvStat "a.txt"; EvStat "a.txt";
        EvPrint ("a.txt" ++ nl); EvRename "a.txt" "/tmp/a.txt"]).
Proof. reflexivity. Qed.

(** [srm -r foo/] and [srm -r foo]: the same path is renamed, to
    different destinations. *)
Example run_trailing_separator :
  log (snd (main ["-r"; "foo/"] (Demo.world []))) =
    [EvStat "/home/u/.Trash"; EvStat "foo/"; EvStat "foo";
     EvRename "foo" "/tmp/"]
  /\ log (snd (main ["-r"; "foo"] (Demo.world []))) =
    [EvStat "/home/u/.Trash"; EvStat "foo"; EvStat "foo";
     EvRename "foo" "/tmp/foo"].
Proof. split; reflexivity. Qed.

(** [srm -I a b c d e], answered "n": one prompt, status 0, nothing
    else. *)
Example run_batch_declined :
  main ["-I"; "a"; "b"; "c"; "d"; "e"] (Demo.world [Token "n"]) =
    (Exited 0,
     Demo.mkW Demo.disk []
       [EvStat "/home/u/.Trash"; EvPrint "remove 5 files?";
        EvScanln (Token "n")]).
Proof. reflexivity. Qed.

(** [srm] without arguments: the usage text and status 1. *)
Example run_no_arguments :
  exists w, main [] (Demo.world []) = (Exited 1, w)
            /\ log w = [EvStat "/home/u/.Trash";
                        EvPrint ("Usage:" ++ nl);
                        EvPrint ("    srm [-f | -i] [-dIRrv] <filepath> <...>" ++ nl);
                        EvPrint ("Note:" ++ nl);
                        EvPrint ("    Intended to replace `rm` via a shell alias" ++ nl)].
Proof. eexists; split; reflexivity. Qed.

(** [srm -i a.txt b.txt], answered "n" then "Y". *)
Example run_interactive :
  main ["-i"; "a.txt"; "b.txt"] (Demo.world [Token "n"; Token "Y"]) =
    (Done tt,
     Demo.mkW (Demo.rename Demo.disk "b.txt" "/tmp/b.txt") []
       [EvStat "/home/u/.Trash";
        EvStat "a.txt"; EvPrint "remove a.txt?"; EvScanln (Token "n");
        EvStat "b.txt"; EvPrint "remove b.txt?"; EvScanln (Token "Y");
        EvStat "b.txt"; EvRename "b.txt" "/tmp/b.txt"]).
Proof. reflexivity. Qed.

(** ** Membership and the classifier *)

Lemma In_true_iff (needle : string) (haystack : list string) :
  In needle haystack = true <-> List.In needle haystack.
Proof.
  induction haystack as [|i rest IH]; simpl.
  - split; [discriminate | tauto].
  - destruct (String.eqb_spec needle i) as [->|Hne].
    + split; auto.
    + rewrite IH. split; [auto | intros [Heq|Hin]; [congruence | exact Hin]].
Qed.

Lemma In_false_iff (needle : string) (haystack : list string) :
  In needle haystack = false <-> ~ List.In needle haystack.
Proof.
  rewrite <- In_true_iff. destruct (In needle haystack); split; congruence.
Qed.

Lemma In_app (needle : string) (l1 l2 : list string) :
  In needle (l1 ++ l2) = In needle l1 || In needle l2.
Proof.
  induction l1 as [|i rest IH]; simpl; [reflexivity|].
  destruct (String.eqb needle i); [reflexivity | exact IH].
Qed.

Lemma marker_not_flag : isFlag "--" = false.
Proof. reflexivity. Qed.

Lemma parseLoop_cons (arg : string) (rest flags files : list string)
  (seen : bool) :
  parseLoop (arg :: rest) flags files seen =
  if String.eqb arg "--" then parseLoop rest flags files true
  else if isFlag arg && negb seen
       then parseLoop rest (flags ++ [arg]) files seen
       else parseLoop rest flags (files ++ [arg]) seen.
Proof. reflexivity. Qed.

(** Once the marker has been seen every token but the marker is an
    operand. *)
Lemma parseLoop_seen (args flags files : list string) :
  parseLoop args flags files true =
  (flags, (files ++ filter notMarker args)%list).
Proof.
  revert files. induction args as [|arg rest IH]; intros files.
  - cbn [parseLoop filter]. now rewrite app_nil_r.
  - rewrite parseLoop_cons. cbn [filter]. unfold notMarker at 1.
    destruct (String.eqb arg "--"); cbn [negb].
    + apply IH.
    + rewrite andb_false_r, IH, <- app_assoc. reflexivity.
Qed.

(** Before the marker the tokens are sorted into the two slices. *)
Lemma parseLoop_before (pre rest flags files : list string) :
  ~ List.In "--" pre ->
  parseLoop (pre ++ rest) flags files false =
  parseLoop rest (flags ++ filter isFlag pre)
            (files ++ filter (fun a => negb (isFlag a)) pre) false.
Proof.
  revert flags files.
  induction pre as [|arg pre IH]; intros flags files Hpre.
  - cbn [app filter]. now rewrite !app_nil_r.
  - cbn [app filter]. rewrite parseLoop_cons.
    destruct (String.eqb_spec arg "--") as [->|Hne].
    + exfalso. apply Hpre. now left.
    + assert (Hpre' : ~ List.In "--" pre) by (intros Hin; apply Hpre; now right).
      rewrite andb_true_r.
      destruct (isFlag arg); cbn [negb]; rewrite IH by exact Hpre';
        rewrite <- !app_assoc; reflexivity.
Qed.

Lemma filter_notMarker_clean (l : list string) :
  ~ List.In "--" (filter notMarker l).
Proof.
  intros Hin. apply filter_In in Hin. destruct Hin as [_ Hb].
  unfold notMarker in Hb. rewrite String.eqb_refl in Hb. discriminate.
Qed.

(** Neither slice ever holds the marker, from whatever state the loop is
    entered. *)
Lemma parseLoop_no_marker (args flags files : list string) (seen : bool) :
  ~ List.In "--" flags -> ~ List.In "--" files ->
  ~ List.In "--" (fst (parseLoop args flags files seen))
  /\ ~ List.In "--" (snd (parseLoop args flags files seen)).
Proof.
  revert flags files seen.
  induction args as [|arg rest IH]; intros flags files seen Hf Hg.
  - cbn [parseLoop fst snd]. auto.
  - rewrite parseLoop_cons.
    destruct (String.eqb_spec arg "--") as [->|Hne]; [now apply IH|].
    destruct (isFlag arg && negb seen); apply IH; auto;
      rewrite in_app_iff; cbn [List.In]; intuition congruence.
Qed.

Section Properties.
Context {RT : Runtime}.

(** *** How [bind] runs *)

Lemma bind_Done {A B} (m : M A) (k : A -> M B) (w w' : World) (a : A) :
  m w = (Done a, w') -> bind m k w = k a w'.
Proof. unfold bind. now intros ->. Qed.

Lemma bind_Exited {A B} (m : M A) (k : A -> M B) (w w' : World) (code : Z) :
  m w = (Exited code, w') -> bind m k w = (Exited code, w').
Proof. unfold bind. now intros ->. Qed.

Lemma bind_Panicked {A B} (m : M A) (k : A -> M B) (w w' : World) :
  m w = (Panicked, w') -> bind m k w = (Panicked, w').
Proof. unfold bind. now intros ->. Qed.

Lemma bind_assoc {A B C} (m : M A) (k : A -> M B) (k' : B -> M C)
  (w : World) :
  bind (bind m k) k' w = bind m (fun a => bind (k a) k') w.
Proof. unfold bind. destruct (m w) as [[a| |] w']; reflexivity. Qed.

Lemma bind_ext {A B} (m : M A) (k k' : A -> M B) (w : World) :
  (forall a w', k a w' = k' a w') -> bind m k w = bind m k' w.
Proof.
  intros Hk. unfold bind. destruct (m w) as [[a| |] w']; [apply Hk | | ];
    reflexivity.
Qed.

Lemma logged_logged (es es' : list event) (w : World) :
  logged es' (logged es w) = logged (es ++ es') w.
Proof. unfold logged; simpl. now rewrite app_assoc. Qed.

Lemma prompted_logged (msg : string) (es : list event) (w : World) :
  prompted msg (logged es w) =
  mkWorld (fs w) (tl (stdin w))
          (log w ++ es ++ [EvPrint msg; EvScanln (nextScan w)]).
Proof. unfold prompted, logged, nextScan; simpl. now rewrite <- app_assoc. Qed.

(** *** The interaction helper *)

Lemma getUserConfirmation_runs (msg : string) (w : World) :
  getUserConfirmation msg w = (Done (nextAnswer w), prompted msg w).
Proof.
  unfold getUserConfirmation, nextAnswer, prompted, nextScan, bind, fmt_Print,
    fmt_Scanln, record, ret.
  cbn [stdin fs log].
  destruct (stdin w) as [|r rest]; cbn [stdin fs log tl stored];
    rewrite <- app_assoc; cbn [app];
    match goal with |- context [In ?x affirmative] =>
      destruct (In x affirmative) end; reflexivity.
Qed.

Lemma ToLower_empty : ToLower "" = "".
Proof. reflexivity. Qed.

Lemma nextAnswer_logged (es : list event) (w : World) :
  nextAnswer (logged es w) = nextAnswer w.
Proof. reflexivity. Qed.

(** *** The accessors *)

Lemma IsDir_runs (filepath : string) (w : World) :
  IsDir filepath w =
  (Done match os_Stat (fs w) filepath with
        | inl mode => (Go.FileMode_IsDir mode, None)
        | inr err => (false, Some err)
        end,
   logged [EvStat filepath] w).
Proof.
  unfold IsDir, bind, Stat, ret, record, logged.
  destruct (os_Stat (fs w) filepath); reflexivity.
Qed.

Lemma IsReadOnly_runs (filepath : string) (w : World) :
  IsReadOnly filepath w =
  (Done match os_Stat (fs w) filepath with
        | inl mode => (Z.land (Go.FileMode_Perm mode) 128 =? 0, None)
        | inr err => (false, Some err)
        end,
   logged [EvStat filepath] w).
Proof.
  unfold IsReadOnly, bind, Stat, ret, record, logged.
  destruct (os_Stat (fs w) filepath); reflexivity.
Qed.

(** *** The directory check, case by case *)

Lemma directoryCheck_runs (o : Options) (filepath : string) (w : World) :
  directoryCheck o filepath w =
  match os_Stat (fs w) filepath with
  | inr err => (Exited 1, logged [EvStat filepath; EvPrint (err ++ nl)] w)
  | inl mode =>
      let isDir := Go.FileMode_IsDir mode in
      if isDir && negb (recursiveFlag o) && negb (directoryFlag o)
      then (Exited 1, logged [EvStat filepath; EvPrint (rejection filepath)] w)
      else if isDir && nonintrusiveInteractiveFlag o && recursiveFlag o
           then (Done (nextAnswer w),
                 prompted ("recursively remove " ++ filepath ++ "?")
                          (logged [EvStat filepath] w))
           else (Done true, logged [EvStat filepath] w)
  end.
Proof.
  unfold directoryCheck.
  rewrite (bind_Done _ _ _ (IsDir_runs filepath w)).
  destruct (os_Stat (fs w) filepath) as [mode|err]; cbv zeta.
  - destruct (Go.FileMode_IsDir mode && negb (recursiveFlag o)
              && negb (directoryFlag o)).
    + unfold bind, fmt_Print, os_Exit, record, logged, rejection.
      cbn [fs stdin log]. now rewrite <- app_assoc.
    + destruct (Go.FileMode_IsDir mode && nonintrusiveInteractiveFlag o
                && recursiveFlag o).
      * now rewrite getUserConfirmation_runs.
      * reflexivity.
  - unfold bind, fmt_Println, fmt_Print, os_Exit, record, logged.
    cbn [fs stdin log]. now rewrite <- app_assoc.
Qed.

(** *** Display name and normalisation *)

Lemma Split_nonempty (s : string) (sep : ascii) : Go.Split s sep <> [].
Proof.
  destruct s as [|c s]; cbn [Go.Split]; [discriminate|].
  destruct (Ascii.eqb c sep); [discriminate|].
  destruct (Go.Split s sep); discriminate.
Qed.

Lemma index_last {A} (l : list A) (d : A) :
  l <> [] -> Go.index l (Go.lenSlice l - 1) = Some (List.last l d).
Proof.
  intros Hl. unfold Go.index, Go.lenSlice.
  destruct l as [|a l]; [congruence|]. clear Hl.
  replace (Z.of_nat (List.length (a :: l)) - 1) with (Z.of_nat (List.length l))
    by (cbn [List.length]; lia).
  rewrite Nat2Z.id.
  replace ((0 <=? Z.of_nat (List.length l))
           && (Z.of_nat (List.length l) <? Z.of_nat (List.length (a :: l))))
    with true
    by (symmetry; apply andb_true_iff; split;
        [apply Z.leb_le | apply Z.ltb_lt]; cbn [List.length]; lia).
  revert a. induction l as [|b l IH]; intros a; [reflexivity|].
  cbn [List.length nth_error]. rewrite IH. reflexivity.
Qed.

Lemma displayName_runs (filepath : string) (w : World) :
  displayName filepath w = (Done (lastSegment filepath), w).
Proof.
  unfold displayName, lastSegment.
  rewrite (index_last "" (@Split_nonempty filepath "/")). reflexivity.
Qed.

Lemma sliceFrom_last (s : string) :
  Go.sliceFrom s (Go.len s - 1) =
  match s with EmptyString => None | _ => Some (lastByte s) end.
Proof.
  unfold Go.sliceFrom, Go.len.
  destruct s as [|c s]; [reflexivity|].
  replace (Z.of_nat (String.length (String c s)) - 1)
    with (Z.of_nat (String.length s)) by (cbn [String.length]; lia).
  rewrite Nat2Z.id.
  replace ((0 <=? Z.of_nat (String.length s))
           && (Z.of_nat (String.length s)
               <=? Z.of_nat (String.length (String c s))))
    with true
    by (symmetry; apply andb_true_iff; split; apply Z.leb_le;
        cbn [String.length]; lia).
  f_equal.
  replace (String.length (String c s) - String.length s)%nat with 1%nat
    by (cbn [String.length]; lia).
  revert c. induction s as [|d s IH]; intros c; [reflexivity|].
  cbn [String.length substring lastByte]. apply IH.
Qed.

Lemma TrimRight_keeps (s : string) (cut : ascii) :
  lastByte s <> String cut EmptyString -> s <> EmptyString ->
  Go.TrimRight s cut = s.
Proof.
  induction s as [|c s IH]; intros Hlast Hne; [congruence|].
  cbn [Go.TrimRight].
  destruct s as [|d s].
  - cbn [Go.TrimRight]. cbn [lastByte] in Hlast.
    destruct (Ascii.eqb_spec c cut) as [->|_]; congruence.
  - rewrite IH; [reflexivity | exact Hlast | discriminate].
Qed.

Lemma stripTrailing_empty (w : World) : stripTrailing "" w = (Panicked, w).
Proof. reflexivity. Qed.

Lemma stripTrailing_runs (filepath : string) (w : World) :
  filepath <> "" ->
  stripTrailing filepath w = (Done (Go.TrimRight filepath "/"), w).
Proof.
  intros Hne. unfold stripTrailing. rewrite sliceFrom_last.
  destruct filepath as [|c s]; [congruence|].
  unfold orPanic, bind, ret.
  destruct (String.eqb_spec (lastByte (String c s)) "/") as [_|Hlast];
    [reflexivity|].
  now rewrite TrimRight_keeps.
Qed.

(** *** The prompt of [-i] and the normalisation *)

Lemma confirmAndStrip_runs (o : Options) (targetDir filepath : string)
  (w : World) :
  confirmAndStrip o targetDir filepath w =
  let filename := lastSegment filepath in
  let dest := targetDir ++ "/" ++ filename in
  let w' := if interactiveFlag o
            then prompted ("remove " ++ filepath ++ "?") w else w in
  if interactiveFlag o && negb (nextAnswer w) then (Done None, w')
  else match filepath with
       | EmptyString => (Panicked, w')
       | _ => (Done (Some (Go.TrimRight filepath "/", filename, dest)), w')
       end.
Proof.
  unfold confirmAndStrip.
  rewrite (bind_Done _ _ _ (displayName_runs filepath w)).
  cbv zeta.
  assert (Hstrip : forall w',
    bind (stripTrailing filepath)
         (fun p => ret (Some (p, lastSegment filepath,
                              targetDir ++ "/" ++ lastSegment filepath))) w' =
    match filepath with
    | EmptyString => (Panicked, w')
    | _ => (Done (Some (Go.TrimRight filepath "/", lastSegment filepath,
                        targetDir ++ "/" ++ lastSegment filepath)), w')
    end).
  { intros w'. destruct filepath as [|c s]; [reflexivity|].
    erewrite bind_Done by (apply stripTrailing_runs; discriminate).
    reflexivity. }
  destruct (interactiveFlag o); cbn [andb].
  - rewrite (bind_Done _ _ _ (getUserConfirmation_runs _ w)).
    destruct (nextAnswer w); cbn [negb]; [apply Hstrip | reflexivity].
  - unfold ret at 1. rewrite (bind_Done _ _ w (a:=true)) by reflexivity.
    cbn [negb]. apply Hstrip.
Qed.

(** *** The read-only check and the move *)

Lemma checkAndMove_runs (o : Options) (filepath filename dest : string)
  (w : World) :
  checkAndMove o filepath filename dest w =
  match os_Stat (fs w) filepath with
  | inr err => (Exited 1, logged [EvStat filepath; EvPrint (err ++ nl)] w)
  | inl mode =>
      if (Z.land (Go.FileMode_Perm mode) 128 =? 0) && negb (forceFlag o)
      then (Exited 1,
            logged [EvStat filepath; EvPrint ("File is read-only" ++ nl)] w)
      else (Done tt, moved o filepath filename dest w)
  end.
Proof.
  unfold checkAndMove.
  rewrite (bind_Done _ _ _ (IsReadOnly_runs filepath w)).
  destruct (os_Stat (fs w) filepath) as [mode|err].
  - destruct ((Z.land (Go.FileMode_Perm mode) 128 =? 0) && negb (forceFlag o)).
    + unfold bind, fmt_Println, fmt_Print, os_Exit, record, logged.
      cbn [fs stdin log]. now rewrite <- app_assoc.
    + unfold moved, bind, fmt_Println, fmt_Print, Rename, ret, record, logged.
      destruct (verboseFlag o); cbn [fs stdin log];
        rewrite <- ?app_assoc; reflexivity.
  - unfold bind, fmt_Println, fmt_Print, os_Exit, record, logged.
    cbn [fs stdin log]. now rewrite <- app_assoc.
Qed.

(** *** The loop *)

Lemma rangeFiles_cons (o : Options) (targetDir filepath : string)
  (rest : list string) :
  rangeFiles o targetDir (filepath :: rest) =
  bind (loopBody o targetDir filepath) (fun _ => rangeFiles o targetDir rest).
Proof. reflexivity. Qed.

(** The operands are handled one after the other: what is proved below
    of the first operand of a loop, from any world, holds of every
    operand when its turn comes. *)
Lemma rangeFiles_app (o : Options) (targetDir : string)
  (done rest : list string) (w : World) :
  rangeFiles o targetDir (done ++ rest) w =
  bind (rangeFiles o targetDir done) (fun _ => rangeFiles o targetDir rest) w.
Proof.
  revert w. induction done as [|filepath done IH]; intros w.
  - reflexivity.
  - cbn [app]. rewrite !rangeFiles_cons, bind_assoc.
    apply bind_ext. intros _ w'. apply IH.
Qed.

(** An operand that the directory check lets through and whose prompt is
    not declined reaches the read-only check. *)
Lemma loopBody_reaches (o : Options) (targetDir filepath : string)
  (w w0 w1 : World) (p filename dest : string) :
  directoryCheck o filepath w = (Done true, w0) ->
  confirmAndStrip o targetDir filepath w0 = (Done (Some (p, filename, dest)), w1) ->
  loopBody o targetDir filepath w = checkAndMove o p filename dest w1.
Proof.
  intros Hd Hc. unfold loopBody.
  rewrite (bind_Done _ _ _ Hd). cbn [negb].
  rewrite (bind_Done _ _ _ Hc). reflexivity.
Qed.

(** An operand whose "recursively remove" prompt is declined is skipped. *)
Lemma loopBody_skipped_early (o : Options) (targetDir filepath : string)
  (w w0 : World) :
  directoryCheck o filepath w = (Done false, w0) ->
  loopBody o targetDir filepath w = (Done tt, w0).
Proof.
  intros Hd. unfold loopBody. rewrite (bind_Done _ _ _ Hd). reflexivity.
Qed.

(** An operand whose "remove" prompt is declined is skipped. *)
Lemma loopBody_skipped (o : Options) (targetDir filepath : string)
  (w w0 w1 : World) :
  directoryCheck o filepath w = (Done true, w0) ->
  confirmAndStrip o targetDir filepath w0 = (Done None, w1) ->
  loopBody o targetDir filepath w = (Done tt, w1).
Proof.
  intros Hd Hc. unfold loopBody.
  rewrite (bind_Done _ _ _ Hd). cbn [negb].
  rewrite (bind_Done _ _ _ Hc). reflexivity.
Qed.

(** *** Substrings *)

Lemma append_assoc (a b c : string) : (a ++ b) ++ c = a ++ b ++ c.
Proof. induction a as [|x a IH]; cbn [append]; [reflexivity | now rewrite IH]. Qed.

Lemma rejection_mentions_directory (filepath : string) :
  Contains "is a directory" (rejection filepath).
Proof.
  exists ("srm: " ++ filepath ++ ": "), nl. unfold rejection.
  rewrite !append_assoc. reflexivity.
Qed.

(** ** The claims *)

(** C2. For every token sequence, no token standing after the first
    end-of-options marker [--] enters the flag slice, even when it is a
    recognized flag string: the flags are the recognized tokens that stand
    before the marker, every later token but a further marker is an
    operand, and the marker is in neither output (whether or not the
    sequence holds one).  In particular
    [parseArgs] on [--] [-f] returns no flag and the one operand [-f]. *)
Theorem C2_marker_ends_flag_parsing :
  forall (pre post : list string) (w : World),
    ~ List.In "--" pre ->
    let flags := filter isFlag pre in
    let files := (filter (fun a => negb (isFlag a)) pre
                  ++ filter notMarker post)%list in
    parseArgs (pre ++ "--" :: post) w = (Done (flags, files), w)
    /\ (forall t, List.In t flags -> List.In t pre /\ isFlag t = true)
    /\ ~ List.In "--" flags
    /\ ~ List.In "--" files
    /\ (forall args,
          ~ List.In "--" (fst (parseLoop args [] [] false))
          /\ ~ List.In "--" (snd (parseLoop args [] [] false)))
    /\ parseArgs ["--"; "-f"] w = (Done ([], ["-f"]), w).
Proof.
  intros pre post w Hpre flags files.
  assert (Hloop : parseLoop (pre ++ "--" :: post) [] [] false = (flags, files)).
  { rewrite parseLoop_before by exact Hpre.
    rewrite parseLoop_cons, String.eqb_refl, parseLoop_seen. reflexivity. }
  split; [|split; [|split; [|split; [|split]]]].
  - unfold parseArgs.
    replace (Go.lenSlice (pre ++ "--" :: post) <? 1) with false.
    + now rewrite Hloop.
    + symmetry. apply Z.ltb_ge. unfold Go.lenSlice.
      rewrite length_app. cbn [List.length]. lia.
  - intros t Ht. apply filter_In in Ht. exact Ht.
  - pose proof (@parseLoop_no_marker (pre ++ "--" :: post) [] [] false) as H.
    rewrite Hloop in H. apply H; intros [].
  - pose proof (@parseLoop_no_marker (pre ++ "--" :: post) [] [] false) as H.
    rewrite Hloop in H. apply H; intros [].
  - intros args. apply parseLoop_no_marker; intros [].
  - reflexivity.
Qed.

(** C8. [getUserConfirmation] prints the prompt, reads one token,
    lower-cases it and returns true exactly when the result is one of
    "y", "yes", "yea", "yeah", "da", "si", "letsgo"; it always returns
    (it neither exits nor panics), and it returns false when nothing
    could be read or the token is empty. *)
Theorem C8_confirmation_helper :
  forall (msg : string) (w : World),
    let token := stored (nextScan w) in
    let answer := In (ToLower token) affirmative in
    getUserConfirmation msg w = (Done answer, prompted msg w)
    /\ log (prompted msg w) = (log w ++ [EvPrint msg; EvScanln (nextScan w)])%list
    /\ (answer = true <->
        List.In (ToLower token)
                ["y"; "yes"; "yea"; "yeah"; "da"; "si"; "letsgo"])
    /\ (token = "" -> answer = false)
    /\ (nextScan w = ReadFailure -> answer = false)
    /\ (stdin w = [] -> answer = false).
Proof.
  intros msg w token answer.
  split; [apply getUserConfirmation_runs|].
  split; [reflexivity|].
  split; [apply In_true_iff|].
  assert (Hempty : token = "" -> answer = false).
  { intros Htok. unfold answer. rewrite Htok. reflexivity. }
  split; [exact Hempty|].
  split.
  - intros Hr. apply Hempty. unfold token. now rewrite Hr.
  - intros Hin. apply Hempty. unfold token, nextScan. now rewrite Hin.
Qed.

(** C10. The normalisation step slices the operand at [len - 1], which
    is out of range for the empty string: on the empty operand the step
    panics, on every other operand it returns (the path without its
    trailing separators).  So an empty operand that the directory check
    lets through, and whose "remove" prompt is not declined, makes the
    run panic. *)
Theorem C10_normalisation_needs_nonempty :
  forall (o : Options) (targetDir : string) (rest : list string)
         (w w0 : World),
    Go.sliceFrom "" (Go.len "" - 1) = None
    /\ stripTrailing "" w = (Panicked, w)
    /\ (forall filepath,
          filepath <> "" ->
          Go.sliceFrom filepath (Go.len filepath - 1) = Some (lastByte filepath)
          /\ stripTrailing filepath w = (Done (Go.TrimRight filepath "/"), w))
    /\ (directoryCheck o "" w = (Done true, w0) ->
        interactiveFlag o = false \/ nextAnswer w0 = true ->
        exists w1,
          rangeFiles o targetDir ("" :: rest) w = (Panicked, w1)
          /\ fs w1 = fs w0).
Proof.
  intros o targetDir rest w w0.
  split; [reflexivity|]. split; [reflexivity|]. split.
  - intros filepath Hne. split.
    + rewrite sliceFrom_last. destruct filepath; congruence.
    + now apply stripTrailing_runs.
  - intros Hd Hgo.
    pose proof (confirmAndStrip_runs o targetDir "" w0) as Hc.
    cbv zeta in Hc.
    replace (interactiveFlag o && negb (nextAnswer w0)) with false in Hc
      by (destruct Hgo as [-> | ->]; [reflexivity | now rewrite andb_false_r]).
    eexists. split.
    + rewrite rangeFiles_cons. apply bind_Panicked.
      unfold loopBody. rewrite (bind_Done _ _ _ Hd). cbn [negb].
      apply bind_Panicked. exact Hc.
    + destruct (interactiveFlag o); reflexivity.
Qed.

(** C1 (evaluation of the code).  The display name is taken from the
    operand before its trailing separators are stripped: for [foo/] the
    display name is the empty string and the destination is the
    destination root followed by a separator, while for [foo] they are
    [foo] and root/foo; the path that is moved is [foo] for both. *)
Theorem C1_trailing_separator_display_name :
  forall (targetDir : string) (w : World),
    displayName "foo/" w = (Done "", w)
    /\ displayName "foo" w = (Done "foo", w)
    /\ stripTrailing "foo/" w = (Done "foo", w)
    /\ stripTrailing "foo" w = (Done "foo", w)
    /\ confirmAndStrip (mkOptions false false false false false false false)
          targetDir "foo/" w
        = (Done (Some ("foo", "", targetDir ++ "/")), w)
    /\ confirmAndStrip (mkOptions false false false false false false false)
          targetDir "foo" w
        = (Done (Some ("foo", "foo", targetDir ++ "/foo")), w).
Proof.
  intros targetDir w. repeat split; rewrite confirmAndStrip_runs; reflexivity.
Qed.

(** *** The batch prompt *)

Lemma batchPrompt_runs (o : Options) (filesCount : Z) (w : World) :
  batchPrompt o filesCount w =
  if nonintrusiveInteractiveFlag o && (filesCount >? 3)
  then (if nextAnswer w then Done tt else Exited 0,
        prompted ("remove " ++ Go.itoa filesCount ++ " files?") w)
  else (Done tt, w).
Proof.
  unfold batchPrompt.
  destruct (nonintrusiveInteractiveFlag o && (filesCount >? 3)); [|reflexivity].
  rewrite (bind_Done _ _ _ (getUserConfirmation_runs _ w)).
  destruct (nextAnswer w); reflexivity.
Qed.

(** C3. With [-I] and more than three operands, the engine prints the
    one prompt "remove N files?", N being the number of operands, and
    reads one answer before the loop over the operands starts.  On a
    negative answer the run exits with status 0 and nothing else has
    happened: no [stat], no further prompt, no rename, the file system is
    untouched.  On an affirmative answer the loop starts from there.
    With three operands or fewer there is no such prompt.  No property of
    the operands (directory or not) enters the condition.  Unless help
    was asked for, [main] runs this engine on the flags and operands of
    the command line. *)
Theorem C3_batch_prompt :
  forall (targetDir : string) (flags files : list string) (w : World),
    let o := readFlags flags in
    let n := Go.lenSlice files in
    let w1 := prompted ("remove " ++ Go.itoa n ++ " files?") w in
    In "-I" flags = true ->
    (3 < n -> nextAnswer w = false ->
       engine o targetDir files w = (Exited 0, w1)
       /\ exitStatus (fst (engine o targetDir files w)) = 0
       /\ fs w1 = fs w
       /\ log w1 = (log w ++ [EvPrint ("remove " ++ Go.itoa n ++ " files?");
                              EvScanln (nextScan w)])%list)
    /\ (3 < n -> nextAnswer w = true ->
          engine o targetDir files w = rangeFiles o targetDir files w1)
    /\ (n <= 3 -> engine o targetDir files w = rangeFiles o targetDir files w)
    /\ (helpFlag o = false ->
          run targetDir flags files w = engine o targetDir files w).
Proof.
  intros targetDir flags files w o n w1 HI.
  pose proof (batchPrompt_runs o n w) as Hb.
  assert (HI' : nonintrusiveInteractiveFlag o = true) by exact HI.
  rewrite HI' in Hb. cbn [andb] in Hb.
  assert (Hrun : engine o targetDir files w =
                 bind (batchPrompt o n) (fun _ => rangeFiles o targetDir files) w)
    by reflexivity.
  split; [|split; [|split]].
  - intros Hn Hno.
    replace (n >? 3) with true in Hb by (symmetry; apply Z.gtb_lt; lia).
    rewrite Hno in Hb.
    assert (Hexit : engine o targetDir files w = (Exited 0, w1))
      by (rewrite Hrun; now apply bind_Exited).
    rewrite Hexit. repeat split.
  - intros Hn Hyes.
    replace (n >? 3) with true in Hb by (symmetry; apply Z.gtb_lt; lia).
    rewrite Hyes in Hb. rewrite Hrun, (bind_Done _ _ _ Hb). reflexivity.
  - intros Hn.
    replace (n >? 3) with false in Hb
      by (symmetry; rewrite Z.gtb_ltb; apply Z.ltb_ge; lia).
    rewrite Hrun, (bind_Done _ _ _ Hb). reflexivity.
  - intros Hhelp. unfold run. fold o. now rewrite Hhelp.
Qed.

(** C4. An operand that [IsDir] reports as a directory, with neither
    [-r]/[-R] nor [-d]: the line "srm: <path>: is a directory" is printed
    and the run exits at once with status 1; nothing was renamed and the
    later operands are not looked at.  With [-r] or [-R] the directory
    check returns and does not print that line. *)
Theorem C4_directory_rejection :
  forall (o : Options) (targetDir filepath : string) (rest : list string)
         (w : World) (mode : Go.FileMode),
    os_Stat (fs w) filepath = inl mode ->
    Go.FileMode_IsDir mode = true ->
    (recursiveFlag o = false -> directoryFlag o = false ->
       rangeFiles o targetDir (filepath :: rest) w =
       (Exited 1, logged [EvStat filepath; EvPrint (rejection filepath)] w)
       /\ exitStatus (fst (rangeFiles o targetDir (filepath :: rest) w)) <> 0
       /\ Contains "is a directory" (rejection filepath))
    /\ (recursiveFlag o = true ->
        exists (go : bool) (w' : World) (es : list event),
          directoryCheck o filepath w = (Done go, w')
          /\ fs w' = fs w
          /\ log w' = (log w ++ es)%list
          /\ ~ List.In (EvPrint (rejection filepath)) es).
Proof.
  intros o targetDir filepath rest w mode Hstat Hdir.
  pose proof (directoryCheck_runs o filepath w) as Hd.
  rewrite Hstat in Hd. cbv zeta in Hd. rewrite Hdir in Hd.
  split.
  - intros Hr Hf. rewrite Hr, Hf in Hd. cbn [andb negb] in Hd.
    assert (Hexit : rangeFiles o targetDir (filepath :: rest) w =
              (Exited 1, logged [EvStat filepath; EvPrint (rejection filepath)] w)).
    { rewrite rangeFiles_cons. apply bind_Exited.
      unfold loopBody. now apply bind_Exited. }
    rewrite Hexit. split; [reflexivity|]. split; [discriminate|].
    apply rejection_mentions_directory.
  - intros Hr. rewrite Hr in Hd. cbn [andb negb] in Hd.
    destruct (nonintrusiveInteractiveFlag o); cbn [andb] in Hd.
    + do 3 eexists. split; [exact Hd|]. split; [reflexivity|].
      split; [rewrite prompted_logged; reflexivity|].
      cbn [List.In]. unfold rejection.
      intros [H|[H|[H|[]]]]; discriminate.
    + do 3 eexists. split; [exact Hd|]. split; [reflexivity|].
      split; [reflexivity|].
      cbn [List.In]. intros [H|[]]; discriminate.
Qed.

Lemma mentions_read_only : Contains "read-only" ("File is read-only" ++ nl).
Proof. exists "File is ", nl. reflexivity. Qed.

(** C5. An operand that reaches the read-only check and that
    [IsReadOnly] reports as read-only (no owner write bit): without [-f]
    the line "File is read-only" is printed and the run exits with
    status 1, this operand and the later ones are not renamed; with [-f]
    the operand is renamed to its destination and the loop goes on with
    the next operand. *)
Theorem C5_read_only :
  forall (o : Options) (targetDir filepath : string) (rest : list string)
         (w w0 w1 : World) (p filename dest : string) (mode : Go.FileMode),
    directoryCheck o filepath w = (Done true, w0) ->
    confirmAndStrip o targetDir filepath w0
      = (Done (Some (p, filename, dest)), w1) ->
    os_Stat (fs w1) p = inl mode ->
    Z.land (Go.FileMode_Perm mode) 128 = 0 ->
    IsReadOnly p w1 = (Done (true, None), logged [EvStat p] w1)
    /\ (forceFlag o = false ->
          rangeFiles o targetDir (filepath :: rest) w =
          (Exited 1,
           logged [EvStat p; EvPrint ("File is read-only" ++ nl)] w1)
          /\ exitStatus (fst (rangeFiles o targetDir (filepath :: rest) w)) <> 0
          /\ Contains "read-only" ("File is read-only" ++ nl))
    /\ (forceFlag o = true ->
          rangeFiles o targetDir (filepath :: rest) w =
          rangeFiles o targetDir rest (moved o p filename dest w1)
          /\ fs (moved o p filename dest w1) = os_Rename (fs w1) p dest
          /\ List.In (EvRename p dest) (log (moved o p filename dest w1))).
Proof.
  intros o targetDir filepath rest w w0 w1 p filename dest mode Hd Hc Hstat Hro.
  pose proof (checkAndMove_runs o p filename dest w1) as Hm.
  rewrite Hstat, Hro in Hm. cbn [Z.eqb andb] in Hm.
  pose proof (loopBody_reaches o targetDir filepath w Hd Hc) as Hbody.
  split; [|split].
  - rewrite IsReadOnly_runs, Hstat, Hro. reflexivity.
  - intros Hf. rewrite Hf in Hm. cbn [negb] in Hm.
    assert (Hexit : rangeFiles o targetDir (filepath :: rest) w =
      (Exited 1, logged [EvStat p; EvPrint ("File is read-only" ++ nl)] w1)).
    { rewrite rangeFiles_cons. apply bind_Exited. now rewrite Hbody. }
    rewrite Hexit. split; [reflexivity|]. split; [discriminate|].
    apply mentions_read_only.
  - intros Hf. rewrite Hf in Hm. cbn [negb] in Hm.
    split; [|split].
    + rewrite rangeFiles_cons.
      assert (Hbody' : loopBody o targetDir filepath w =
                       (Done tt, moved o p filename dest w1))
        by now rewrite Hbody.
      rewrite (bind_Done _ _ _ Hbody'). reflexivity.
    + reflexivity.
    + unfold moved. cbn [log]. repeat (apply in_or_app; right). now left.
Qed.

(** C6. An operand that [IsDir] reports as a directory, with [-I] and
    [-r]/[-R]: the prompt "recursively remove <path>?" is printed and one
    answer read.  On a negative answer this operand is skipped (no
    further prompt, no read-only check, no rename) and the loop goes on
    with the next operand: the run is not aborted. *)
Theorem C6_recursive_prompt :
  forall (o : Options) (targetDir filepath : string) (rest : list string)
         (w : World) (mode : Go.FileMode),
    os_Stat (fs w) filepath = inl mode ->
    Go.FileMode_IsDir mode = true ->
    nonintrusiveInteractiveFlag o = true ->
    recursiveFlag o = true ->
    let w1 := prompted ("recursively remove " ++ filepath ++ "?")
                       (logged [EvStat filepath] w) in
    directoryCheck o filepath w = (Done (nextAnswer w), w1)
    /\ log w1 = (log w ++ [EvStat filepath;
                           EvPrint ("recursively remove " ++ filepath ++ "?");
                           EvScanln (nextScan w)])%list
    /\ fs w1 = fs w
    /\ (nextAnswer w = false ->
        loopBody o targetDir filepath w = (Done tt, w1)
        /\ rangeFiles o targetDir (filepath :: rest) w =
           rangeFiles o targetDir rest w1).
Proof.
  intros o targetDir filepath rest w mode Hstat Hdir HI Hr w1.
  pose proof (directoryCheck_runs o filepath w) as Hd.
  rewrite Hstat in Hd. cbv zeta in Hd. rewrite Hdir, HI, Hr in Hd.
  cbn [andb negb] in Hd.
  split; [exact Hd|]. split; [unfold w1; now rewrite prompted_logged|].
  split; [reflexivity|].
  intros Hno. rewrite Hno in Hd.
  pose proof (loopBody_skipped_early o targetDir filepath w Hd) as Hbody.
  split; [exact Hbody|].
  rewrite rangeFiles_cons, (bind_Done _ _ _ Hbody). reflexivity.
Qed.

(** C7 (as amended). With [-i], an operand that the directory check lets
    through gets the prompt "remove <path>?" and one answer is read.  On a negative
    answer the operand is skipped: the read-only check is not run (no
    further [stat]), nothing is renamed, and the loop goes on with the
    next operand; when the later operands end without a fatal condition
    the run returns, that is status 0. *)
Theorem C7_interactive_decline :
  forall (o : Options) (targetDir filepath : string) (rest : list string)
         (w w0 : World),
    interactiveFlag o = true ->
    directoryCheck o filepath w = (Done true, w0) ->
    let w1 := prompted ("remove " ++ filepath ++ "?") w0 in
    (exists r, confirmAndStrip o targetDir filepath w0 = (r, w1))
    /\ log w1 = (log w0 ++ [EvPrint ("remove " ++ filepath ++ "?");
                            EvScanln (nextScan w0)])%list
    /\ fs w1 = fs w0
    /\ (nextAnswer w0 = false ->
        loopBody o targetDir filepath w = (Done tt, w1)
        /\ rangeFiles o targetDir (filepath :: rest) w =
           rangeFiles o targetDir rest w1
        /\ (forall w2, rangeFiles o targetDir rest w1 = (Done tt, w2) ->
              exitStatus (fst (rangeFiles o targetDir (filepath :: rest) w))
              = 0)).
Proof.
  intros o targetDir filepath rest w w0 Hi Hd w1.
  pose proof (confirmAndStrip_runs o targetDir filepath w0) as Hc.
  cbv zeta in Hc. rewrite Hi in Hc. cbn [andb] in Hc. fold w1 in Hc.
  split; [|split; [reflexivity|split; [reflexivity|]]].
  - rewrite Hc. destruct (negb (nextAnswer w0)); [eauto|].
    destruct filepath; eauto.
  - intros Hno. rewrite Hno in Hc. cbn [negb] in Hc.
    pose proof (loopBody_skipped o targetDir filepath w Hd Hc) as Hbody.
    assert (Hloop : rangeFiles o targetDir (filepath :: rest) w =
                    rangeFiles o targetDir rest w1)
      by (rewrite rangeFiles_cons, (bind_Done _ _ _ Hbody); reflexivity).
    split; [exact Hbody|]. split; [exact Hloop|].
    intros w2 Hrest. rewrite Hloop, Hrest. reflexivity.
Qed.

(** *** Flags are read by membership only *)

Lemma parseLoop_acc (args flags files : list string) (seen : bool) :
  parseLoop args flags files seen =
  ((flags ++ fst (parseLoop args [] [] seen))%list,
   (files ++ snd (parseLoop args [] [] seen))%list).
Proof.
  revert flags files seen.
  induction args as [|arg rest IH]; intros flags files seen.
  - cbn [parseLoop fst snd]. now rewrite !app_nil_r.
  - rewrite !parseLoop_cons.
    destruct (String.eqb arg "--"); [apply IH|].
    destruct (isFlag arg && negb seen).
    + rewrite (IH (flags ++ [arg])%list), (IH ([] ++ [arg])%list).
      cbn [fst snd app]. now rewrite <- app_assoc.
    + rewrite (IH flags (files ++ [arg])%list), (IH [] ([] ++ [arg])%list).
      cbn [fst snd app]. now rewrite <- app_assoc.
Qed.

Lemma readFlags_ext (flags1 flags2 : list string) :
  (forall x, In x flags1 = In x flags2) ->
  readFlags flags1 = readFlags flags2.
Proof. intros H. unfold readFlags. now rewrite !H. Qed.

Lemma run_ext (targetDir : string) (flags1 flags2 files : list string) :
  readFlags flags1 = readFlags flags2 ->
  run targetDir flags1 files = run targetDir flags2 files.
Proof. intros H. unfold run. now rewrite H. Qed.

Lemma main_runs (args : list string) (w : World) :
  args <> [] ->
  main args w =
  bind getTargetRmDir
       (fun targetDir => run targetDir (fst (parseLoop args [] [] false))
                             (snd (parseLoop args [] [] false))) w.
Proof.
  intros Hne. unfold main, parseArgs.
  replace (Go.lenSlice args <? 1) with false.
  - unfold bind at 1 3. destruct (getTargetRmDir w) as [[targetDir| |] w'];
      try reflexivity.
    unfold bind, ret. destruct (parseLoop args [] [] false); reflexivity.
  - symmetry. apply Z.ltb_ge. unfold Go.lenSlice.
    destruct args; [congruence | cbn [List.length]; lia].
Qed.

Lemma main_ext (args1 args2 : list string) (w : World) :
  args1 <> [] -> args2 <> [] ->
  readFlags (fst (parseLoop args1 [] [] false))
  = readFlags (fst (parseLoop args2 [] [] false)) ->
  snd (parseLoop args1 [] [] false) = snd (parseLoop args2 [] [] false) ->
  main args1 w = main args2 w.
Proof.
  intros H1 H2 Hflags Hfiles. rewrite !main_runs by assumption.
  unfold bind. destruct (getTargetRmDir w) as [[targetDir| |] w'];
    try reflexivity.
  rewrite Hfiles.
  now rewrite (@run_ext targetDir _ _ _ Hflags).
Qed.

Lemma In_repeat (x t : string) (n : nat) :
  In x (repeat t (S n)) = In x [t].
Proof.
  induction n as [|n IH]; [reflexivity|].
  change (repeat t (S (S n))) with (t :: repeat t (S n)).
  cbn [In] in *. destruct (String.eqb x t); [reflexivity | exact IH].
Qed.

(** The loop on [pre ++ rest] when [pre] holds recognized flag tokens
    only and the marker has not been seen: they all go to the flags. *)
Lemma parseLoop_flags_block (block rest flags files : list string) :
  (forall t, List.In t block -> isFlag t = true) ->
  parseLoop (block ++ rest) flags files false =
  parseLoop rest (flags ++ block) files false.
Proof.
  revert flags. induction block as [|t block IH]; intros flags Hblock.
  - cbn [app]. now rewrite app_nil_r.
  - cbn [app]. rewrite parseLoop_cons.
    assert (Ht : isFlag t = true) by (apply Hblock; now left).
    destruct (String.eqb_spec t "--") as [->|_]; [discriminate Ht|].
    rewrite Ht. cbn [andb negb].
    rewrite IH by (intros u Hu; apply Hblock; now right).
    now rewrite <- app_assoc.
Qed.

(** C9. Repeating a recognized flag token changes nothing: the token
    sequence that lists the flag [S n] times in a row and the one that
    lists it once give flag slices with the same members, hence the same
    seven booleans, the same operands and the same run of [main]; and
    adding one more occurrence of a flag that the sequence already lists
    (anywhere before the marker) changes neither the booleans, nor the
    operands, nor the run. *)
Theorem C9_duplicate_flags :
  forall (a b : list string) (t : string) (n : nat) (w : World),
    isFlag t = true ->
    ~ List.In "--" a ->
    let parse := fun args => parseLoop args [] [] false in
    let once := parse (a ++ t :: b)%list in
    let many := parse (a ++ repeat t (S n) ++ b)%list in
    let base := parse (a ++ b)%list in
    ((forall x, In x (fst many) = In x (fst once))
     /\ readFlags (fst many) = readFlags (fst once)
     /\ snd many = snd once
     /\ main (a ++ repeat t (S n) ++ b) w = main (a ++ t :: b) w)
    /\ (In t (fst base) = true ->
        (forall x, In x (fst once) = In x (fst base))
        /\ readFlags (fst once) = readFlags (fst base)
        /\ snd once = snd base
        /\ main (a ++ t :: b) w = main (a ++ b) w).
Proof.
  intros a b t n w Ht Ha parse once many base.
  set (F := filter isFlag a).
  set (G := filter (fun x => negb (isFlag x)) a).
  set (X := fst (parse b)). set (Y := snd (parse b)).
  assert (Hbase : base = ((F ++ X)%list, (G ++ Y)%list)).
  { unfold base, parse. rewrite parseLoop_before by exact Ha.
    rewrite parseLoop_acc. reflexivity. }
  assert (Hblock : forall block,
             (forall u, List.In u block -> isFlag u = true) ->
             parse (a ++ block ++ b)%list
             = ((F ++ block ++ X)%list, (G ++ Y)%list)).
  { intros block Hb. unfold parse. rewrite parseLoop_before by exact Ha.
    rewrite parseLoop_flags_block by exact Hb.
    rewrite parseLoop_acc. cbn [app]. now rewrite <- app_assoc. }
  assert (Honce : once = ((F ++ [t] ++ X)%list, (G ++ Y)%list)).
  { apply (Hblock [t]). intros u [<-|[]]. exact Ht. }
  assert (Hmany : many = ((F ++ repeat t (S n) ++ X)%list, (G ++ Y)%list)).
  { apply (Hblock (repeat t (S n))). intros u Hu.
    apply repeat_spec in Hu. now subst u. }
  assert (Hmem1 : forall x, In x (fst many) = In x (fst once)).
  { intros x. rewrite Hmany, Honce. cbn [fst].
    rewrite !In_app, In_repeat. reflexivity. }
  split.
  - split; [exact Hmem1|]. split; [now apply readFlags_ext|].
    split; [now rewrite Hmany, Honce|].
    apply main_ext.
    + destruct a; discriminate.
    + destruct a; discriminate.
    + now apply readFlags_ext.
    + fold (parse (a ++ repeat t (S n) ++ b)%list).
      fold (parse (a ++ t :: b)%list). fold many. fold once.
      now rewrite Hmany, Honce.
  - intros Hin.
    assert (Hmem2 : forall x, In x (fst once) = In x (fst base)).
    { intros x. rewrite Honce, Hbase. cbn [fst].
      rewrite Hbase in Hin. cbn [fst] in Hin. rewrite In_app in Hin.
      rewrite !In_app. cbn [In].
      destruct (String.eqb_spec x t) as [->|_]; cbv iota; cbn [orb].
      - now rewrite orb_true_r, Hin.
      - reflexivity. }
    split; [exact Hmem2|]. split; [now apply readFlags_ext|].
    split; [now rewrite Honce, Hbase|].
    apply main_ext.
    + destruct a; discriminate.
    + intros Hnil. unfold base, parse in Hin. rewrite Hnil in Hin.
      discriminate Hin.
    + now apply readFlags_ext.
    + fold (parse (a ++ t :: b)%list). fold (parse (a ++ b)%list).
      fold once. fold base. now rewrite Honce, Hbase.
Qed.

End Properties.

(** ** The claims at work on the small world *)

(** [srm -- -v a.txt --  -f b] style input: the tokens [-v] and [a.txt]
    stand before the marker, [-f], a second marker and [b] after it. *)
Lemma C2_marker_ends_flag_parsing_witness :
  ~ List.In "--" ["-v"; "a.txt"]
  /\ parseArgs (["-v"; "a.txt"] ++ "--" :: ["-f"; "--"; "b"]) (Demo.world [])
     = (Done (["-v"], ["a.txt"; "-f"; "b"]), Demo.world []).
Proof.
  assert (H : ~ List.In "--" ["-v"; "a.txt"])
    by (intros [H|[H|[]]]; discriminate H).
  split; [exact H|].
  exact (proj1 (@C2_marker_ends_flag_parsing Demo.runtime
                  ["-v"; "a.txt"] ["-f"; "--"; "b"] (Demo.world []) H)).
Defined.

(** The answer "YES" is affirmative. *)
Lemma C8_confirmation_helper_witness :
  getUserConfirmation "remove a.txt?" (Demo.world [Token "YES"])
  = (Done true,
     Demo.mkW Demo.disk [] [EvPrint "remove a.txt?"; EvScanln (Token "YES")]).
Proof.
  exact (proj1 (@C8_confirmation_helper Demo.runtime "remove a.txt?"
                  (Demo.world [Token "YES"]))).
Defined.

(** [srm -I a.txt b.txt a b c], answered "n". *)
Lemma C3_batch_prompt_witness :
  In "-I" ["-I"] = true
  /\ 3 < Go.lenSlice ["a.txt"; "b.txt"; "a"; "b"; "c"]
  /\ nextAnswer (Demo.world [Token "n"]) = false
  /\ engine (readFlags ["-I"]) "/tmp" ["a.txt"; "b.txt"; "a"; "b"; "c"]
         (Demo.world [Token "n"])
     = (Exited 0,
        Demo.mkW Demo.disk [] [EvPrint "remove 5 files?"; EvScanln (Token "n")]).
Proof.
  assert (H3 : 3 < Go.lenSlice ["a.txt"; "b.txt"; "a"; "b"; "c"])
    by reflexivity.
  split; [reflexivity|]. split; [exact H3|]. split; [reflexivity|].
  exact (proj1 (proj1 (@C3_batch_prompt Demo.runtime "/tmp" ["-I"]
                         ["a.txt"; "b.txt"; "a"; "b"; "c"]
                         (Demo.world [Token "n"]) eq_refl)
                      H3 eq_refl)).
Defined.

(** [srm foo a.txt] where [foo] is a directory. *)
Lemma C4_directory_rejection_witness :
  os_Stat (fs (Demo.world [])) "foo" = inl Demo.directory
  /\ Go.FileMode_IsDir Demo.directory = true
  /\ rangeFiles (readFlags []) "/tmp" ["foo"; "a.txt"] (Demo.world [])
     = (Exited 1,
        Demo.mkW Demo.disk []
          [EvStat "foo"; EvPrint ("srm: foo: is a directory" ++ nl)]).
Proof.
  split; [reflexivity|]. split; [reflexivity|].
  exact (proj1 (proj1 (@C4_directory_rejection Demo.runtime (readFlags [])
                         "/tmp" "foo" ["a.txt"] (Demo.world [])
                         Demo.directory eq_refl eq_refl)
                      eq_refl eq_refl)).
Defined.

(** [srm ro.txt a.txt] where [ro.txt] has no write bit. *)
Lemma C5_read_only_witness :
  directoryCheck (readFlags []) "ro.txt" (Demo.world [])
  = (Done true, Demo.mkW Demo.disk [] [EvStat "ro.txt"])
  /\ confirmAndStrip (readFlags []) "/tmp" "ro.txt"
       (Demo.mkW Demo.disk [] [EvStat "ro.txt"])
     = (Done (Some ("ro.txt", "ro.txt", "/tmp/ro.txt")),
        Demo.mkW Demo.disk [] [EvStat "ro.txt"])
  /\ os_Stat (fs (Demo.mkW Demo.disk [] [EvStat "ro.txt"])) "ro.txt"
     = inl Demo.readonly
  /\ Z.land (Go.FileMode_Perm Demo.readonly) 128 = 0
  /\ rangeFiles (readFlags []) "/tmp" ["ro.txt"; "a.txt"] (Demo.world [])
     = (Exited 1,
        Demo.mkW Demo.disk []
          [EvStat "ro.txt"; EvStat "ro.txt";
           EvPrint ("File is read-only" ++ nl)]).
Proof.
  split; [reflexivity|]. split; [reflexivity|]. split; [reflexivity|].
  split; [reflexivity|].
  exact (proj1 (proj1 (proj2
    (@C5_read_only Demo.runtime (readFlags []) "/tmp" "ro.txt" ["a.txt"]
       (Demo.world []) (Demo.mkW Demo.disk [] [EvStat "ro.txt"])
       (Demo.mkW Demo.disk [] [EvStat "ro.txt"])
       "ro.txt" "ro.txt" "/tmp/ro.txt" Demo.readonly
       eq_refl eq_refl eq_refl eq_refl)) eq_refl)).
Defined.

(** [srm -I -r foo a.txt], answered "n": [foo] stays, [a.txt] moves. *)
Lemma C6_recursive_prompt_witness :
  os_Stat (fs (Demo.world [Token "n"])) "foo" = inl Demo.directory
  /\ Go.FileMode_IsDir Demo.directory = true
  /\ nonintrusiveInteractiveFlag (readFlags ["-I"; "-r"]) = true
  /\ recursiveFlag (readFlags ["-I"; "-r"]) = true
  /\ nextAnswer (Demo.world [Token "n"]) = false
  /\ rangeFiles (readFlags ["-I"; "-r"]) "/tmp" ["foo"; "a.txt"]
       (Demo.world [Token "n"])
     = rangeFiles (readFlags ["-I"; "-r"]) "/tmp" ["a.txt"]
         (Demo.mkW Demo.disk []
            [EvStat "foo"; EvPrint "recursively remove foo?";
             EvScanln (Token "n")]).
Proof.
  split; [reflexivity|]. split; [reflexivity|]. split; [reflexivity|].
  split; [reflexivity|]. split; [reflexivity|].
  exact (proj2 (proj2 (proj2 (proj2
    (@C6_recursive_prompt Demo.runtime (readFlags ["-I"; "-r"]) "/tmp" "foo"
       ["a.txt"] (Demo.world [Token "n"]) Demo.directory
       eq_refl eq_refl eq_refl eq_refl))) eq_refl)).
Defined.

(** [srm -i a.txt b.txt], answered "n" for [a.txt]. *)
Lemma C7_interactive_decline_witness :
  interactiveFlag (readFlags ["-i"]) = true
  /\ directoryCheck (readFlags ["-i"]) "a.txt" (Demo.world [Token "n"])
     = (Done true, Demo.mkW Demo.disk [Token "n"] [EvStat "a.txt"])
  /\ nextAnswer (Demo.mkW Demo.disk [Token "n"] [EvStat "a.txt"]) = false
  /\ rangeFiles (readFlags ["-i"]) "/tmp" ["a.txt"; "b.txt"]
       (Demo.world [Token "n"])
     = rangeFiles (readFlags ["-i"]) "/tmp" ["b.txt"]
         (Demo.mkW Demo.disk []
            [EvStat "a.txt"; EvPrint "remove a.txt?"; EvScanln (Token "n")]).
Proof.
  split; [reflexivity|]. split; [reflexivity|]. split; [reflexivity|].
  exact (proj1 (proj2 (proj2 (proj2 (proj2
    (@C7_interactive_decline Demo.runtime (readFlags ["-i"]) "/tmp" "a.txt"
       ["b.txt"] (Demo.world [Token "n"])
       (Demo.mkW Demo.disk [Token "n"] [EvStat "a.txt"])
       eq_refl eq_refl))) eq_refl))).
Defined.

(** C7 as it is stated fails: with [-i] an operand does not always get
    the prompt "remove <path>?".  In [srm -i foo a.txt], [foo] a
    directory, the run exits with status 1 on the directory rejection
    and nothing was asked; in [srm -i -I -r foo], answered "n" to
    "recursively remove foo?", the operand is skipped, the run returns
    and "remove foo?" was never printed. *)
Lemma C7_counterexample :
  interactiveFlag (readFlags ["-i"]) = true
  /\ rangeFiles (readFlags ["-i"]) "/tmp" ["foo"; "a.txt"]
       (Demo.world [Token "n"])
     = (Exited 1,
        Demo.mkW Demo.disk [Token "n"]
          [EvStat "foo"; EvPrint ("srm: foo: is a directory" ++ nl)])
  /\ interactiveFlag (readFlags ["-i"; "-I"; "-r"]) = true
  /\ rangeFiles (readFlags ["-i"; "-I"; "-r"]) "/tmp" ["foo"]
       (Demo.world [Token "n"])
     = (Done tt,
        Demo.mkW Demo.disk []
          [EvStat "foo"; EvPrint "recursively remove foo?";
           EvScanln (Token "n")])
  /\ ~ (forall (o : Options) (targetDir filepath : string)
               (w : @World Demo.runtime),
          interactiveFlag o = true ->
          List.In (EvPrint ("remove " ++ filepath ++ "?"))
                  (log (snd (loopBody o targetDir filepath w)))).
Proof.
  split; [reflexivity|]. split; [reflexivity|]. split; [reflexivity|].
  split; [reflexivity|].
  intros Hall.
  specialize (Hall (readFlags ["-i"]) "/tmp" "foo" (Demo.world [Token "n"])
                   eq_refl).
  cbn in Hall. destruct Hall as [H|[H|[]]]; discriminate H.
Qed.

(** [srm -f x -f -f -f y] against [srm -f x -f y] and [srm -f x y]. *)
Lemma C9_duplicate_flags_witness :
  isFlag "-f" = true
  /\ ~ List.In "--" ["-f"; "x"]
  /\ main (["-f"; "x"] ++ repeat "-f" 3 ++ ["y"]) (Demo.world [])
     = main (["-f"; "x"] ++ "-f" :: ["y"]) (Demo.world [])
  /\ main (["-f"; "x"] ++ "-f" :: ["y"]) (Demo.world [])
     = main (["-f"; "x"] ++ ["y"]) (Demo.world []).
Proof.
  assert (H : ~ List.In "--" ["-f"; "x"])
    by (intros [H|[H|[]]]; discriminate H).
  split; [reflexivity|]. split; [exact H|].
  pose proof (@C9_duplicate_flags Demo.runtime ["-f"; "x"] ["y"] "-f" 2%nat
                (Demo.world []) eq_refl H) as [Hmany Hone].
  split.
  - exact (proj2 (proj2 (proj2 Hmany))).
  - exact (proj2 (proj2 (proj2 (Hone eq_refl)))).
Defined.

(** A world whose [stat] succeeds on the empty path. *)
Lemma C10_normalisation_needs_nonempty_witness :
  directoryCheck (readFlags []) "" (Demo.mkW [("", Demo.regular)] [] [])
  = (Done true, Demo.mkW [("", Demo.regular)] [] [EvStat ""])
  /\ (interactiveFlag (readFlags []) = false
      \/ nextAnswer (Demo.mkW [("", Demo.regular)] [] [EvStat ""]) = true)
  /\ exists w1,
       rangeFiles (readFlags []) "/tmp" [""; "a.txt"]
         (Demo.mkW [("", Demo.regular)] [] [])
       = (Panicked, w1)
       /\ fs w1 = fs (Demo.mkW [("", Demo.regular)] [] [EvStat ""]).
Proof.
  split; [reflexivity|]. split; [left; reflexivity|].
  exact (proj2 (proj2 (proj2
    (@C10_normalisation_needs_nonempty Demo.runtime (readFlags []) "/tmp"
       ["a.txt"] (Demo.mkW [("", Demo.regular)] [] [])
       (Demo.mkW [("", Demo.regular)] [] [EvStat ""])))) eq_refl
    (or_introl eq_refl)).
Defined.

(** ** Further properties of the code *)

(** *** util.go: [In] *)

(** X1. [In] is the membership test of the slice: it answers true exactly
    when some element equals the needle, false on the empty slice, and
    on a concatenation it is the disjunction of the two answers. *)
Theorem In_is_membership :
  forall (needle : string) (haystack more : list string),
    (In needle haystack = true <-> List.In needle haystack)
    /\ (In needle haystack = false <-> ~ List.In needle haystack)
    /\ In needle [] = false
    /\ In needle (haystack ++ more) = In needle haystack || In needle more.
Proof.
  intros needle haystack more.
  split; [apply In_true_iff|]. split; [apply In_false_iff|].
  split; [reflexivity | apply In_app].
Qed.

(** *** srm.go: [parseArgs] *)

Lemma parseLoop_plain (args : list string) :
  ~ List.In "--" args ->
  parseLoop args [] [] false =
  (filter isFlag args, filter (fun a => negb (isFlag a)) args).
Proof.
  intros Hno. rewrite <- (app_nil_r args) at 1.
  rewrite parseLoop_before by exact Hno. reflexivity.
Qed.

Lemma lenSlice_nonempty {A} (l : list A) :
  l <> [] -> (Go.lenSlice l <? 1) = false.
Proof.
  intros Hne. apply Z.ltb_ge. unfold Go.lenSlice.
  destruct l; [congruence | cbn [List.length]; lia].
Qed.

Lemma parseLoop_count (args : list string) (seen : bool) :
  (List.length (fst (parseLoop args [] [] seen))
   + List.length (snd (parseLoop args [] [] seen))
   + count_occ string_dec args "--")%nat
  = List.length args.
Proof.
  revert seen. induction args as [|arg rest IH]; intros seen; [reflexivity|].
  rewrite parseLoop_cons. cbn [count_occ List.length].
  destruct (String.eqb_spec arg "--") as [->|Hne].
  - destruct (string_dec "--" "--") as [_|Hbad]; [|congruence].
    specialize (IH true). lia.
  - destruct (string_dec arg "--") as [Heq|_]; [congruence|].
    specialize (IH seen).
    destruct (isFlag arg && negb seen); rewrite parseLoop_acc;
      cbn [fst snd]; rewrite length_app; cbn [List.length app]; lia.
Qed.

Lemma parseLoop_flags_recognized (args flags files : list string)
  (seen : bool) :
  Forall (fun t => isFlag t = true) flags ->
  Forall (fun t => isFlag t = true) (fst (parseLoop args flags files seen)).
Proof.
  revert flags files seen.
  induction args as [|arg rest IH]; intros flags files seen Hf; [exact Hf|].
  rewrite parseLoop_cons.
  destruct (String.eqb arg "--"); [now apply IH|].
  destruct (isFlag arg) eqn:Harg; cbn [andb].
  - destruct (negb seen); apply IH; [|exact Hf].
    apply Forall_app. split; [exact Hf | now constructor].
  - now apply IH.
Qed.

Lemma parseLoop_from_args (args flags files : list string) (seen : bool) :
  (forall t, List.In t (fst (parseLoop args flags files seen)) ->
             List.In t flags \/ List.In t args)
  /\ (forall t, List.In t (snd (parseLoop args flags files seen)) ->
                List.In t files \/ List.In t args).
Proof.
  revert flags files seen.
  induction args as [|arg rest IH]; intros flags files seen.
  - cbn [parseLoop fst snd]. auto.
  - rewrite parseLoop_cons. cbn [List.In].
    destruct (String.eqb arg "--").
    + destruct (IH flags files true) as [H1 H2].
      split; intros t Ht; [apply H1 in Ht | apply H2 in Ht]; tauto.
    + destruct (isFlag arg && negb seen).
      * destruct (IH (flags ++ [arg])%list files seen) as [H1 H2].
        split; intros t Ht; [apply H1 in Ht | apply H2 in Ht];
          rewrite ?in_app_iff in Ht; cbn [List.In] in Ht; tauto.
      * destruct (IH flags (files ++ [arg])%list seen) as [H1 H2].
        split; intros t Ht; [apply H1 in Ht | apply H2 in Ht];
          rewrite ?in_app_iff in Ht; cbn [List.In] in Ht; tauto.
Qed.

(** X3. No token is lost or invented by the classifier: the flags, the
    operands and the markers together are as many as the tokens; every
    flag is a recognized flag string, every flag and every operand is a
    token of the command line, and no operand is the marker. *)
Theorem parseLoop_accounts_for_every_token :
  forall args : list string,
    (List.length (flagsOf args) + List.length (filesOf args)
     + count_occ string_dec args "--")%nat = List.length args
    /\ Forall (fun t => In t VALIDARGS = true) (flagsOf args)
    /\ (forall t, List.In t (flagsOf args) -> List.In t args)
    /\ (forall t, List.In t (filesOf args) -> List.In t args /\ t <> "--").
Proof.
  intros args. unfold flagsOf, filesOf.
  split; [apply parseLoop_count|].
  split; [apply parseLoop_flags_recognized; constructor|].
  destruct (parseLoop_from_args args [] [] false) as [H1 H2].
  split.
  - intros t Ht. destruct (H1 t Ht) as [[]|Hin]. exact Hin.
  - intros t Ht. split.
    + destruct (H2 t Ht) as [[]|Hin]. exact Hin.
    + intros ->.
      now apply (proj2 (@parseLoop_no_marker args [] [] false
                          (fun H => H) (fun H => H))).
Qed.

Section More.
Context {RT : Runtime}.

(** X2. On a command line without the marker [parseArgs] returns, with
    no output: the flags are the recognized tokens and the operands all
    the other tokens, each in command-line order.  A token that is not a
    recognized flag string is an operand whatever it looks like. *)
Theorem parseArgs_without_marker :
  forall (args : list string) (w : World),
    args <> [] ->
    ~ List.In "--" args ->
    parseArgs args w =
      (Done (filter isFlag args, filter (fun a => negb (isFlag a)) args), w)
    /\ (forall t, List.In t args -> In t VALIDARGS = false ->
                  List.In t (filesOf args) /\ ~ List.In t (flagsOf args)).
Proof.
  intros args w Hne Hno.
  pose proof (parseLoop_plain args Hno) as Hloop.
  split.
  - unfold parseArgs. rewrite (lenSlice_nonempty Hne), Hloop. reflexivity.
  - intros t Ht Hflag. unfold filesOf, flagsOf. rewrite Hloop. cbn [fst snd].
    rewrite !filter_In. unfold isFlag. rewrite Hflag. split; [auto|].
    intros [_ Hbad]. discriminate Hbad.
Qed.

(** *** srm.go: [usage], [getTargetRmDir] and the first steps of [main] *)

Lemma usage_runs (w : World) : usage w = (Done tt, logged usageLines w).
Proof.
  unfold usage, usageLines, bind, fmt_Println, fmt_Print, record, logged.
  cbn [fs stdin log]. rewrite <- !app_assoc. reflexivity.
Qed.

Lemma getTargetRmDir_runs (w : World) :
  getTargetRmDir w =
  match os_UserHomeDir with
  | inr _ =>
      (Exited 1, logged [EvPrint ("Could not get users home dir" ++ nl)] w)
  | inl homeDir =>
      (Done match os_Stat (fs w) (homeDir ++ "/.Trash") with
            | inl _ => homeDir ++ "/.Trash"
            | inr _ => "/tmp"
            end,
       logged [EvStat (homeDir ++ "/.Trash")] w)
  end.
Proof.
  unfold getTargetRmDir. destruct os_UserHomeDir as [homeDir|err].
  - unfold bind, Stat, ret, record, logged.
    destruct (os_Stat (fs w) (homeDir ++ "/.Trash")); reflexivity.
  - reflexivity.
Qed.

Lemma main_empty_runs (w : World) :
  main [] w =
  match os_UserHomeDir with
  | inr _ =>
      (Exited 1, logged [EvPrint ("Could not get users home dir" ++ nl)] w)
  | inl homeDir =>
      (Exited 1, logged (EvStat (homeDir ++ "/.Trash") :: usageLines) w)
  end.
Proof.
  unfold main. unfold bind at 1. rewrite getTargetRmDir_runs.
  destruct os_UserHomeDir as [homeDir|err]; [|reflexivity].
  unfold parseArgs. cbn [Go.lenSlice List.length Z.of_nat Z.ltb Z.compare].
  unfold bind at 1. unfold bind at 1. rewrite usage_runs.
  unfold os_Exit. rewrite logged_logged. reflexivity.
Qed.

(** X4. Without arguments [main] ends with status 1.  It resolves the
    destination first: when the home directory is known it makes that one
    [stat] and prints the usage text; when it is not known the only
    output is "Could not get users home dir".  Nothing is renamed. *)
Theorem main_without_arguments :
  forall w : World,
    main [] w =
      match os_UserHomeDir with
      | inr _ =>
          (Exited 1,
           logged [EvPrint ("Could not get users home dir" ++ nl)] w)
      | inl homeDir =>
          (Exited 1, logged (EvStat (homeDir ++ "/.Trash") :: usageLines) w)
      end
    /\ exitStatus (fst (main [] w)) = 1
    /\ fs (snd (main [] w)) = fs w.
Proof.
  intros w. rewrite main_empty_runs.
  destruct os_UserHomeDir; repeat split.
Qed.

Lemma helpFlag_nonempty (args : list string) :
  helpFlag (readFlags (flagsOf args)) = true -> args <> [].
Proof. intros H ->. discriminate H. Qed.

(** X5. When [-h] or [--help] is among the flags, [main] prints the usage
    text and exits with status 0 whatever else is on the command line:
    no operand is looked at, nothing is asked and nothing is renamed. *)
Theorem main_help :
  forall (args : list string) (w : World) (homeDir : string),
    os_UserHomeDir = inl homeDir ->
    In "-h" (flagsOf args) || In "--help" (flagsOf args) = true ->
    main args w =
      (Exited 0, logged (EvStat (homeDir ++ "/.Trash") :: usageLines) w).
Proof.
  intros args w homeDir Hhome Hhelp.
  rewrite main_runs by (apply helpFlag_nonempty; exact Hhelp).
  unfold bind at 1. rewrite getTargetRmDir_runs, Hhome.
  unfold run. cbv zeta.
  replace (helpFlag (readFlags (fst (parseLoop args [] [] false))))
    with true by (symmetry; exact Hhelp).
  unfold bind. rewrite usage_runs. unfold os_Exit.
  rewrite logged_logged. reflexivity.
Qed.

(** X6. A command line that holds flags only (no [-h], no operand) is not
    a usage error: [main] resolves the destination and returns, status
    0, without any prompt, even with [-I]. *)
Theorem main_flags_only :
  forall (args : list string) (w : World) (homeDir : string),
    os_UserHomeDir = inl homeDir ->
    args <> [] ->
    filesOf args = [] ->
    helpFlag (readFlags (flagsOf args)) = false ->
    main args w = (Done tt, logged [EvStat (homeDir ++ "/.Trash")] w).
Proof.
  intros args w homeDir Hhome Hne Hfiles Hhelp.
  rewrite main_runs by exact Hne.
  unfold bind at 1. rewrite getTargetRmDir_runs, Hhome.
  unfold run. cbv zeta. fold (flagsOf args). fold (filesOf args).
  rewrite Hhelp, Hfiles. unfold engine. cbv zeta.
  unfold bind. rewrite batchPrompt_runs.
  cbn [Go.lenSlice List.length Z.of_nat Z.gtb Z.compare].
  rewrite andb_false_r. reflexivity.
Qed.

(** *** The loop of [main], operand by operand *)

Lemma loopBody_unfold (o : Options) (targetDir filepath : string)
  (w : World) :
  loopBody o targetDir filepath w =
  match directoryCheck o filepath w with
  | (Done true, w0) =>
      match confirmAndStrip o targetDir filepath w0 with
      | (Done (Some (p, filename, dest)), w1) =>
          checkAndMove o p filename dest w1
      | (Done None, w1) => (Done tt, w1)
      | (Exited code, w1) => (Exited code, w1)
      | (Panicked, w1) => (Panicked, w1)
      end
  | (Done false, w0) => (Done tt, w0)
  | (Exited code, w0) => (Exited code, w0)
  | (Panicked, w0) => (Panicked, w0)
  end.
Proof.
  unfold loopBody, bind.
  destruct (directoryCheck o filepath w) as [[[|]| |] w0]; try reflexivity.
  cbn [negb].
  destruct (confirmAndStrip o targetDir filepath w0)
    as [[[[[p filename] dest]|]| |] w1]; reflexivity.
Qed.

Lemma confirmAndStrip_ways (o : Options) (targetDir filepath : string)
  (w : World) :
  confirmAndStrip o targetDir filepath w =
  let filename := lastSegment filepath in
  let dest := targetDir ++ "/" ++ filename in
  let w' := if interactiveFlag o
            then prompted ("remove " ++ filepath ++ "?") w else w in
  if interactiveFlag o && negb (nextAnswer w) then (Done None, w')
  else if String.eqb filepath "" then (Panicked, w')
       else (Done (Some (Go.TrimRight filepath "/", filename, dest)), w').
Proof.
  rewrite confirmAndStrip_runs. cbv zeta.
  destruct (interactiveFlag o && negb (nextAnswer w)); [reflexivity|].
  destruct filepath; reflexivity.
Qed.

Ltac split_atom c :=
  lazymatch c with
  | ?a && _ => split_atom a
  | negb ?a => split_atom a
  | _ => destruct c eqn:?
  end.

(** Every way through the loop body, one goal per way. *)
Ltac loopBody_ways H :=
  rewrite loopBody_unfold, directoryCheck_runs in H;
  repeat first
    [ rewrite confirmAndStrip_ways in H
    | rewrite checkAndMove_runs in H
    | progress unfold moved in H
    | progress cbv beta iota zeta in H
    | progress cbn [andb negb] in H
    | match type of H with
      | context [match os_Stat ?a ?b with _ => _ end] =>
          destruct (os_Stat a b) eqn:?
      | context [if ?c then _ else _] => split_atom c
      end ];
  unfold prompted, logged in H; cbn [fs stdin log] in H;
  injection H as <- <-.

Ltac log_extends :=
  cbn [log]; rewrite <- ?app_assoc; reflexivity.

(** What one turn of the loop can do. *)
Lemma loopBody_summary (o : Options) (targetDir filepath : string)
  (w w' : World) (r : outcome unit) :
  loopBody o targetDir filepath w = (r, w') ->
  exists es : list event,
    log w' = (log w ++ es)%list
    /\ (r = Done tt \/ r = Exited 1 \/ (r = Panicked /\ filepath = ""))
    /\ (forall e, List.In e es -> isRename e = true ->
                  e = EvRename (Go.TrimRight filepath "/")
                               (targetDir ++ "/" ++ lastSegment filepath))
    /\ (List.length (filter isRename es) <= 1)%nat
    /\ (interactiveFlag o = false -> nonintrusiveInteractiveFlag o = false ->
        stdin w' = stdin w /\ filter isScanln es = []).
Proof.
  intros H. loopBody_ways H.
  all: eexists; split; [log_extends|].
  all: split;
    [ first [ now left | now (right; left)
            | right; right; split; [reflexivity | now apply String.eqb_eq] ]
    |].
  all: split;
    [ intros ev Hin Hr; cbn [app List.In] in Hin;
      repeat (destruct Hin as [Hin|Hin];
              [subst ev; first [discriminate Hr | reflexivity]|]);
      contradiction |].
  all: split; [cbn [app filter isRename List.length]; lia|].
  all: intros Hi Hn; first [congruence | split; reflexivity].
Qed.

(** What the whole loop can do. *)
Lemma rangeFiles_summary (o : Options) (targetDir : string)
  (files : list string) (w w' : World) (r : outcome unit) :
  rangeFiles o targetDir files w = (r, w') ->
  exists es : list event,
    log w' = (log w ++ es)%list
    /\ (r = Done tt \/ r = Exited 1 \/ (r = Panicked /\ List.In "" files))
    /\ (forall e, List.In e es -> isRename e = true ->
                  exists f, List.In f files
                            /\ e = EvRename (Go.TrimRight f "/")
                                            (targetDir ++ "/" ++ lastSegment f))
    /\ (List.length (filter isRename es) <= List.length files)%nat
    /\ (interactiveFlag o = false -> nonintrusiveInteractiveFlag o = false ->
        stdin w' = stdin w /\ filter isScanln es = []).
Proof.
  revert w. induction files as [|f rest IH]; intros w H.
  - injection H as <- <-. exists []. rewrite app_nil_r.
    repeat split; auto. intros e [].
  - rewrite rangeFiles_cons in H. unfold bind in H.
    destruct (loopBody o targetDir f w) as [r1 w1] eqn:Hbody.
    apply loopBody_summary in Hbody.
    destruct Hbody as (es1 & Hlog1 & Hr1 & Hren1 & Hcount1 & Hin1).
    destruct r1 as [[]|code|].
    + apply IH in H.
      destruct H as (es2 & Hlog2 & Hr2 & Hren2 & Hcount2 & Hin2).
      exists (es1 ++ es2)%list.
      split; [now rewrite Hlog2, Hlog1, app_assoc|].
      split; [cbn [List.In]; tauto|].
      split.
      { intros e He Hr. apply in_app_or in He. destruct He as [He|He].
        - exists f. split; [now left | now apply Hren1].
        - destruct (Hren2 e He Hr) as (g & Hg & Heq).
          exists g. split; [now right | exact Heq]. }
      split; [rewrite filter_app, length_app; cbn [List.length]; lia|].
      intros Hi Hn. destruct (Hin1 Hi Hn) as [Hs1 Hf1].
      destruct (Hin2 Hi Hn) as [Hs2 Hf2].
      split; [congruence | now rewrite filter_app, Hf1, Hf2].
    + injection H as <- <-. exists es1.
      split; [exact Hlog1|].
      split; [destruct Hr1 as [Hr|[Hr|[Hr _]]]; [discriminate Hr | auto
                                                | discriminate Hr]|].
      split.
      { intros e He Hr. exists f. split; [now left | now apply Hren1]. }
      split; [cbn [List.length]; lia | exact Hin1].
    + injection H as <- <-. exists es1.
      split; [exact Hlog1|].
      split.
      { right. right. split; [reflexivity|]. left.
        destruct Hr1 as [Hr|[Hr|[_ Hr]]]; [discriminate Hr | discriminate Hr
                                          | now symmetry]. }
      split.
      { intros e He Hr. exists f. split; [now left | now apply Hren1]. }
      split; [cbn [List.length]; lia | exact Hin1].
Qed.

(** [main], way by way. *)
Lemma main_ways (args : list string) (w : World) :
  main args w =
  match os_UserHomeDir with
  | inr _ =>
      (Exited 1, logged [EvPrint ("Could not get users home dir" ++ nl)] w)
  | inl homeDir =>
      let targetDir := match os_Stat (fs w) (homeDir ++ "/.Trash") with
                       | inl _ => homeDir ++ "/.Trash"
                       | inr _ => "/tmp"
                       end in
      let w0 := logged [EvStat (homeDir ++ "/.Trash")] w in
      let o := readFlags (flagsOf args) in
      let n := Go.lenSlice (filesOf args) in
      match args with
      | [] => (Exited 1, logged usageLines w0)
      | _ =>
          if helpFlag o then (Exited 0, logged usageLines w0)
          else if nonintrusiveInteractiveFlag o && (n >? 3)
               then let w1 := prompted ("remove " ++ Go.itoa n ++ " files?")
                                       w0 in
                    if nextAnswer w0
                    then rangeFiles o targetDir (filesOf args) w1
                    else (Exited 0, w1)
               else rangeFiles o targetDir (filesOf args) w0
      end
  end.
Proof.
  destruct args as [|arg rest].
  - rewrite main_empty_runs.
    destruct os_UserHomeDir as [homeDir|err]; [|reflexivity].
    cbv zeta. now rewrite logged_logged.
  - rewrite main_runs by discriminate.
    unfold bind at 1. rewrite getTargetRmDir_runs.
    destruct os_UserHomeDir as [homeDir|err]; [|reflexivity].
    cbv zeta. unfold run. cbv zeta.
    fold (flagsOf (arg :: rest)). fold (filesOf (arg :: rest)).
    destruct (helpFlag (readFlags (flagsOf (arg :: rest)))).
    + unfold bind. rewrite usage_runs. reflexivity.
    + unfold engine. cbv zeta. unfold bind at 1. rewrite batchPrompt_runs.
      destruct (nonintrusiveInteractiveFlag (readFlags (flagsOf (arg :: rest)))
                && (Go.lenSlice (filesOf (arg :: rest)) >? 3)); [|reflexivity].
      rewrite nextAnswer_logged.
      destruct (nextAnswer w); reflexivity.
Qed.

(** What a whole run can do. *)
Lemma main_summary (args : list string) (w w' : World) (r : outcome unit) :
  main args w = (r, w') ->
  exists es : list event,
    log w' = (log w ++ es)%list
    /\ (r = Done tt \/ r = Exited 0 \/ r = Exited 1
        \/ (r = Panicked /\ List.In "" (filesOf args)))
    /\ (forall e, List.In e es -> isRename e = true ->
          exists f root,
            List.In f (filesOf args)
            /\ e = EvRename (Go.TrimRight f "/") (root ++ "/" ++ lastSegment f)
            /\ (root = "/tmp"
                \/ exists homeDir, os_UserHomeDir = inl homeDir
                                   /\ root = homeDir ++ "/.Trash"))
    /\ (List.length (filter isRename es) <= List.length (filesOf args))%nat
    /\ (In "-i" (flagsOf args) = false -> In "-I" (flagsOf args) = false ->
        stdin w' = stdin w /\ filter isScanln es = []).
Proof.
  intros H. rewrite main_ways in H.
  destruct os_UserHomeDir as [homeDir|err] eqn:Hhome.
  2:{ injection H as <- <-. eexists. split; [reflexivity|].
      split; [auto|]. split.
      - intros e [<-|[]] Hr. discriminate Hr.
      - split; [cbn; lia | intros _ _; split; reflexivity]. }
  cbv zeta in H.
  set (targetDir := match os_Stat (fs w) (homeDir ++ "/.Trash") with
                    | inl _ => homeDir ++ "/.Trash"
                    | inr _ => "/tmp"
                    end) in H.
  assert (Hroot : targetDir = "/tmp"
                  \/ exists h, @inl string Go.error homeDir = inl h
                               /\ targetDir = h ++ "/.Trash").
  { unfold targetDir. destruct (os_Stat (fs w) (homeDir ++ "/.Trash"));
      [right; exists homeDir; auto | now left]. }
  clearbody targetDir.
  assert (Hrange : forall (pre : list event) (w1 : World),
    log w1 = (log w ++ pre)%list ->
    filter isRename pre = [] ->
    (In "-i" (flagsOf args) = false -> In "-I" (flagsOf args) = false ->
     stdin w1 = stdin w /\ filter isScanln pre = []) ->
    rangeFiles (readFlags (flagsOf args)) targetDir (filesOf args) w1 = (r, w') ->
    exists es : list event,
      log w' = (log w ++ es)%list
      /\ (r = Done tt \/ r = Exited 0 \/ r = Exited 1
          \/ (r = Panicked /\ List.In "" (filesOf args)))
      /\ (forall e, List.In e es -> isRename e = true ->
            exists f root,
              List.In f (filesOf args)
              /\ e = EvRename (Go.TrimRight f "/")
                              (root ++ "/" ++ lastSegment f)
              /\ (root = "/tmp"
                  \/ exists h, @inl string Go.error homeDir = inl h /\ root = h ++ "/.Trash"))
      /\ (List.length (filter isRename es)
          <= List.length (filesOf args))%nat
      /\ (In "-i" (flagsOf args) = false -> In "-I" (flagsOf args) = false ->
          stdin w' = stdin w /\ filter isScanln es = [])).
  { intros pre w1 Hlog Hpre Hquiet Hrun.
    apply rangeFiles_summary in Hrun.
    destruct Hrun as (es & Hes & Hr & Hren & Hcount & Hin).
    exists (pre ++ es)%list.
    split; [now rewrite Hes, Hlog, app_assoc|].
    split; [tauto|].
    split.
    { intros e He Hr'. apply in_app_or in He. destruct He as [He|He].
      - exfalso. assert (Hf : List.In e (filter isRename pre))
          by (apply filter_In; auto).
        rewrite Hpre in Hf. exact Hf.
      - destruct (Hren e He Hr') as (f & Hf & Heq).
        exists f, targetDir. auto. }
    split; [now rewrite filter_app, length_app, Hpre|].
    intros Hi HI. destruct (Hquiet Hi HI) as [Hs Hf].
    destruct (Hin Hi HI) as [Hs' Hf'].
    split; [congruence | now rewrite filter_app, Hf, Hf']. }
  assert (Hstop : forall (pre : list event) (code : Z) (ins : list scanResult),
    (code = 0 \/ code = 1) ->
    filter isRename pre = [] ->
    (In "-i" (flagsOf args) = false -> In "-I" (flagsOf args) = false ->
     ins = stdin w /\ filter isScanln pre = []) ->
    (Exited code, mkWorld (fs w) ins (log w ++ pre)) = (r, w') ->
    exists es : list event,
      log w' = (log w ++ es)%list
      /\ (r = Done tt \/ r = Exited 0 \/ r = Exited 1
          \/ (r = Panicked /\ List.In "" (filesOf args)))
      /\ (forall e, List.In e es -> isRename e = true ->
            exists f root,
              List.In f (filesOf args)
              /\ e = EvRename (Go.TrimRight f "/")
                              (root ++ "/" ++ lastSegment f)
              /\ (root = "/tmp"
                  \/ exists h, @inl string Go.error homeDir = inl h /\ root = h ++ "/.Trash"))
      /\ (List.length (filter isRename es)
          <= List.length (filesOf args))%nat
      /\ (In "-i" (flagsOf args) = false -> In "-I" (flagsOf args) = false ->
          stdin w' = stdin w /\ filter isScanln es = [])).
  { intros pre code ins Hcode Hpre Hquiet Hrun. injection Hrun as <- <-.
    exists pre. split; [reflexivity|].
    split; [destruct Hcode as [-> | ->]; auto|].
    split.
    { intros e He Hr'. exfalso.
      assert (Hf : List.In e (filter isRename pre)) by (apply filter_In; auto).
      rewrite Hpre in Hf. exact Hf. }
    split; [rewrite Hpre; cbn [List.length]; lia | exact Hquiet]. }
  destruct args as [|arg rest].
  - apply (Hstop (EvStat (homeDir ++ "/.Trash") :: usageLines) 1 (stdin w));
      [auto | reflexivity | intros _ _; split; reflexivity|].
    rewrite <- H. unfold logged. cbn [fs stdin log]. now rewrite <- app_assoc.
  - destruct (helpFlag (readFlags (flagsOf (arg :: rest)))).
    + apply (Hstop (EvStat (homeDir ++ "/.Trash") :: usageLines) 0 (stdin w));
        [auto | reflexivity | intros _ _; split; reflexivity|].
      rewrite <- H. unfold logged. cbn [fs stdin log].
      now rewrite <- app_assoc.
    + destruct (nonintrusiveInteractiveFlag (readFlags (flagsOf (arg :: rest))))
        eqn:HI; cbn [andb] in H.
      * assert (Hloud : In "-i" (flagsOf (arg :: rest)) = false ->
                        In "-I" (flagsOf (arg :: rest)) = false -> False).
        { intros _ Hno. unfold readFlags in HI.
          cbn [nonintrusiveInteractiveFlag] in HI. congruence. }
        destruct (Go.lenSlice (filesOf (arg :: rest)) >? 3).
        -- rewrite nextAnswer_logged, prompted_logged in H.
           destruct (nextAnswer w).
           ++ match type of H with
              | rangeFiles _ _ _ ?W = _ =>
                  match W with
                  | mkWorld _ _ (_ ++ ?pre) =>
                      refine (Hrange pre W eq_refl _ _ H); [reflexivity|]
                  end
              end.
              intros Hi Hno. destruct (Hloud Hi Hno).
           ++ match type of H with
              | (_, mkWorld _ _ (_ ++ ?pre)) = _ =>
                  refine (Hstop pre 0 _ _ _ _ H); [auto | reflexivity|]
              end.
              intros Hi Hno. destruct (Hloud Hi Hno).
        -- apply (Hrange [EvStat (homeDir ++ "/.Trash")]
                       (logged [EvStat (homeDir ++ "/.Trash")] w));
             [reflexivity | reflexivity | intros _ _; split; reflexivity
             | exact H].
      * apply (Hrange [EvStat (homeDir ++ "/.Trash")]
                       (logged [EvStat (homeDir ++ "/.Trash")] w));
          [reflexivity | reflexivity | intros _ _; split; reflexivity
          | exact H].
Qed.

(** X7. Whatever the command line, the answers and the file system, a
    run renames nothing but operands: every rename it makes takes an
    operand, without its trailing separators, to the destination root
    followed by a separator and the last piece of that operand; the root
    is [/tmp] or the [.Trash] of the home directory; and there are at
    most as many renames as operands. *)
Theorem main_renames_only_operands :
  forall (args : list string) (w : World),
  exists es : list event,
    log (snd (main args w)) = (log w ++ es)%list
    /\ (forall oldpath newpath,
          List.In (EvRename oldpath newpath) es ->
          exists f root,
            List.In f (filesOf args)
            /\ oldpath = Go.TrimRight f "/"
            /\ newpath = root ++ "/" ++ lastSegment f
            /\ (root = "/tmp"
                \/ exists homeDir, os_UserHomeDir = inl homeDir
                                   /\ root = homeDir ++ "/.Trash"))
    /\ (List.length (filter isRename es) <= List.length (filesOf args))%nat.
Proof.
  intros args w. destruct (main args w) as [r w'] eqn:Hmain.
  apply main_summary in Hmain.
  destruct Hmain as (es & Hlog & _ & Hren & Hcount & _).
  exists es. split; [exact Hlog|]. split; [|exact Hcount].
  intros oldpath newpath Hin.
  destruct (Hren _ Hin eq_refl) as (f & root & Hf & Heq & Hroot).
  injection Heq as -> ->. exists f, root. auto.
Qed.

(** X8. Without [-i] and [-I] among the flags a run never reads its
    input: the pending answers are left as they were and no [Scanln] is
    made. *)
Theorem main_reads_nothing_without_interactive_flags :
  forall (args : list string) (w : World),
    In "-i" (flagsOf args) = false ->
    In "-I" (flagsOf args) = false ->
    stdin (snd (main args w)) = stdin w
    /\ exists es : list event,
         log (snd (main args w)) = (log w ++ es)%list
         /\ forall r, ~ List.In (EvScanln r) es.
Proof.
  intros args w Hi HI. destruct (main args w) as [r w'] eqn:Hmain.
  apply main_summary in Hmain.
  destruct Hmain as (es & Hlog & _ & _ & _ & Hquiet).
  destruct (Hquiet Hi HI) as [Hstdin Hscan].
  split; [exact Hstdin|]. exists es. split; [exact Hlog|].
  intros r' Hin.
  assert (Hf : List.In (EvScanln r') (filter isScanln es))
    by (apply filter_In; auto).
  rewrite Hscan in Hf. exact Hf.
Qed.

(** X9. A run ends with status 0 or 1, or it panics, and it can panic
    only when one of the operands is the empty string. *)
Theorem main_exit_status :
  forall (args : list string) (w : World),
    (fst (main args w) = Done tt \/ fst (main args w) = Exited 0
     \/ fst (main args w) = Exited 1
     \/ (fst (main args w) = Panicked /\ List.In "" (filesOf args)))
    /\ (~ List.In "" (filesOf args) ->
        exitStatus (fst (main args w)) = 0
        \/ exitStatus (fst (main args w)) = 1).
Proof.
  intros args w. destruct (main args w) as [r w'] eqn:Hmain.
  apply main_summary in Hmain.
  destruct Hmain as (es & _ & Hr & _). cbn [fst].
  split; [exact Hr|].
  intros Hne. destruct Hr as [-> | [-> | [-> | [_ Hin]]]]; auto.
  contradiction.
Qed.

(** X10. An operand that cannot be [stat]ed ends the run: the error is
    printed and the status is 1, whatever the flags ([-f] included);
    nothing is renamed and the later operands are not looked at.  The
    same holds when the second [stat], the one of the read-only check,
    fails. *)
Theorem stat_error_is_fatal :
  forall (o : Options) (targetDir filepath : string) (rest : list string)
         (w : World) (err : Go.error),
    (os_Stat (fs w) filepath = inr err ->
     rangeFiles o targetDir (filepath :: rest) w =
     (Exited 1, logged [EvStat filepath; EvPrint (err ++ nl)] w))
    /\ (forall (w0 w1 : World) (p filename dest : string),
          directoryCheck o filepath w = (Done true, w0) ->
          confirmAndStrip o targetDir filepath w0
            = (Done (Some (p, filename, dest)), w1) ->
          os_Stat (fs w1) p = inr err ->
          rangeFiles o targetDir (filepath :: rest) w =
          (Exited 1, logged [EvStat p; EvPrint (err ++ nl)] w1)).
Proof.
  intros o targetDir filepath rest w err. split.
  - intros Hstat. rewrite rangeFiles_cons. apply bind_Exited.
    unfold loopBody. apply bind_Exited.
    rewrite directoryCheck_runs, Hstat. reflexivity.
  - intros w0 w1 p filename dest Hd Hc Hstat.
    rewrite rangeFiles_cons. apply bind_Exited.
    rewrite (loopBody_reaches o targetDir filepath w Hd Hc).
    rewrite checkAndMove_runs, Hstat. reflexivity.
Qed.

(** X11. The ordinary case: an operand without a trailing separator that
    is a writable non-directory, with no [-i].  It is [stat]ed twice,
    with [-v] its last piece is printed on a line, and it is renamed to
    the destination root, a separator and its last piece; the loop body
    returns. *)
Theorem regular_file_is_moved :
  forall (o : Options) (targetDir filepath : string) (w : World)
         (mode : Go.FileMode),
    os_Stat (fs w) filepath = inl mode ->
    Go.FileMode_IsDir mode = false ->
    Z.land (Go.FileMode_Perm mode) 128 <> 0 ->
    filepath <> "" ->
    lastByte filepath <> "/" ->
    interactiveFlag o = false ->
    let dest := targetDir ++ "/" ++ lastSegment filepath in
    loopBody o targetDir filepath w =
    (Done tt,
     mkWorld (os_Rename (fs w) filepath dest) (stdin w)
       (log w ++ [EvStat filepath; EvStat filepath]
              ++ (if verboseFlag o
                  then [EvPrint (lastSegment filepath ++ nl)] else [])
              ++ [EvRename filepath dest])).
Proof.
  intros o targetDir filepath w mode Hstat Hdir Hw Hne Hlast Hi dest.
  pose proof (directoryCheck_runs o filepath w) as Hd.
  rewrite Hstat in Hd. cbv zeta in Hd. rewrite Hdir in Hd.
  cbn [andb] in Hd.
  pose proof (confirmAndStrip_ways o targetDir filepath
                (logged [EvStat filepath] w)) as Hc.
  cbv zeta in Hc. rewrite Hi in Hc. cbn [andb] in Hc.
  replace (String.eqb filepath "") with false in Hc
    by (symmetry; now apply String.eqb_neq).
  rewrite (TrimRight_keeps Hlast Hne) in Hc.
  rewrite (loopBody_reaches o targetDir filepath w Hd Hc).
  rewrite checkAndMove_runs. cbn [fs logged]. rewrite Hstat.
  replace (Z.land (Go.FileMode_Perm mode) 128 =? 0) with false
    by (symmetry; now apply Z.eqb_neq).
  cbn [andb]. unfold moved, logged. cbn [fs stdin log].
  fold dest. rewrite <- !app_assoc. reflexivity.
Qed.

(** *** The display name and the normalised path *)

Lemma Split_without_sep (s : string) (sep : ascii) :
  hasByte sep s = false -> Go.Split s sep = [s].
Proof.
  induction s as [|c s IH]; intros H; [reflexivity|].
  cbn [hasByte] in H. apply orb_false_iff in H. destruct H as [Hc Hs].
  cbn [Go.Split]. rewrite Hc, (IH Hs). reflexivity.
Qed.

Lemma Split_with_sep (s : string) (sep : ascii) :
  hasByte sep s = true ->
  exists p q rest, Go.Split s sep = p :: q :: rest.
Proof.
  induction s as [|c s IH]; intros H; [discriminate H|].
  cbn [hasByte] in H. cbn [Go.Split].
  destruct (Ascii.eqb c sep).
  - destruct (Go.Split s sep) as [|q rest] eqn:Hs;
      [now apply Split_nonempty in Hs | eauto].
  - cbn [orb] in H. destruct (IH H) as (p & q & rest & ->). eauto.
Qed.

Lemma lastSegment_cons (c : ascii) (s : string) :
  lastSegment (String c s) =
  if Ascii.eqb c "/" || hasByte "/" s then lastSegment s else String c s.
Proof.
  unfold lastSegment. cbn [Go.Split].
  destruct (Ascii.eqb c "/"); cbn [orb].
  - destruct (Go.Split s "/") as [|q rest] eqn:Hs;
      [now apply Split_nonempty in Hs | reflexivity].
  - destruct (hasByte "/" s) eqn:Hhas.
    + destruct (Split_with_sep s "/" Hhas) as (p & q & rest & ->).
      reflexivity.
    + rewrite (Split_without_sep s "/" Hhas). reflexivity.
Qed.

Lemma lastByte_cons (c : ascii) (s : string) :
  s <> "" -> lastByte (String c s) = lastByte s.
Proof. destruct s; [congruence | reflexivity]. Qed.

Lemma lastSegment_suffix (filepath : string) :
  exists dir : string,
    filepath = dir ++ lastSegment filepath
    /\ hasByte "/" (lastSegment filepath) = false
    /\ (dir = "" \/ lastByte dir = "/").
Proof.
  induction filepath as [|c s IH].
  - exists "". repeat split. now left.
  - destruct IH as (dir & Hs & Hname & Hdir).
    rewrite lastSegment_cons.
    destruct (Ascii.eqb c "/" || hasByte "/" s) eqn:Hc.
    + exists (String c dir). split; [cbn [append]; now rewrite <- Hs|].
      split; [exact Hname|]. right.
      destruct dir as [|d dir].
      * apply orb_true_iff in Hc. destruct Hc as [Hc|Hc].
        -- apply Ascii.eqb_eq in Hc. now subst c.
        -- cbn [append] in Hs. rewrite <- Hs in Hname. congruence.
      * rewrite lastByte_cons by discriminate.
        destruct Hdir as [Hdir|Hdir]; [discriminate Hdir | exact Hdir].
    + exists "". split; [reflexivity|]. split; [|now left].
      apply orb_false_iff in Hc. destruct Hc as [Hc Hs'].
      cbn [hasByte]. now rewrite Hc, Hs'.
Qed.

(** X12. The display name is what follows the last separator of the
    operand (the whole operand when it has none): the operand is a
    directory part, empty or ending with a separator, followed by the
    display name, and the display name holds no separator.  The step
    never panics.  So a destination is always an entry of the
    destination root itself. *)
Theorem displayName_is_last_piece :
  forall (filepath : string) (w : World),
  exists dir name : string,
    displayName filepath w = (Done name, w)
    /\ filepath = dir ++ name
    /\ hasByte "/" name = false
    /\ (dir = "" \/ lastByte dir = "/")
    /\ (hasByte "/" filepath = false -> name = filepath).
Proof.
  intros filepath w.
  destruct (lastSegment_suffix filepath) as (dir & Hs & Hname & Hdir).
  exists dir, (lastSegment filepath).
  split; [apply displayName_runs|]. split; [exact Hs|].
  split; [exact Hname|]. split; [exact Hdir|].
  intros Hno. unfold lastSegment. now rewrite Split_without_sep.
Qed.

Lemma TrimRight_suffix (s : string) (cut : ascii) :
  exists k : nat,
    s = Go.TrimRight s cut ++ repeatByte cut k
    /\ lastByte (Go.TrimRight s cut) <> String cut "".
Proof.
  induction s as [|c s IH].
  - exists O. split; [reflexivity | discriminate].
  - destruct IH as (k & Hs & Hlast). cbn [Go.TrimRight].
    destruct (Go.TrimRight s cut) as [|d t] eqn:Ht.
    + cbn [append] in Hs. destruct (Ascii.eqb_spec c cut) as [->|Hc].
      * exists (S k). split; [cbn [append repeatByte]; congruence|].
        discriminate.
      * exists k. split; [cbn [append]; congruence|].
        cbn [lastByte]. congruence.
    + exists k. split; [cbn [append] in *; congruence|].
      rewrite lastByte_cons by discriminate. exact Hlast.
Qed.

Lemma TrimRight_repeat (cut : ascii) (k : nat) :
  Go.TrimRight (repeatByte cut k) cut = "".
Proof.
  induction k as [|k IH]; [reflexivity|].
  cbn [repeatByte Go.TrimRight]. now rewrite IH, Ascii.eqb_refl.
Qed.

Lemma lastByte_without_sep (s : string) (sep : ascii) :
  hasByte sep s = false -> lastByte s <> String sep "".
Proof.
  induction s as [|c s IH]; [discriminate|].
  cbn [hasByte]. intros Hno Hbad. apply orb_false_iff in Hno.
  destruct Hno as [Hc Hs]. destruct s as [|d s].
  - cbn [lastByte] in Hbad. injection Hbad as ->.
    rewrite Ascii.eqb_refl in Hc. discriminate Hc.
  - rewrite lastByte_cons in Hbad by discriminate. now apply IH.
Qed.

(** X13. On a non-empty operand the normalisation returns the operand
    without its trailing separators and nothing else changed: the
    operand is the result followed by separators only, the result does
    not end with a separator, and normalising a non-empty result again
    gives it back.  An operand made of separators only is normalised to
    the empty path. *)
Theorem stripTrailing_removes_trailing_separators :
  forall (filepath : string) (w : World),
    filepath <> "" ->
    exists (p : string) (k : nat),
      stripTrailing filepath w = (Done p, w)
      /\ filepath = p ++ repeatByte "/" k
      /\ lastByte p <> "/"
      /\ (p <> "" -> stripTrailing p w = (Done p, w))
      /\ (hasByte "/" filepath = false -> p = filepath)
      /\ (forall n, stripTrailing (repeatByte "/" (S n)) w = (Done "", w)).
Proof.
  intros filepath w Hne.
  destruct (TrimRight_suffix filepath "/") as (k & Hs & Hlast).
  exists (Go.TrimRight filepath "/"), k.
  split; [now apply stripTrailing_runs|]. split; [exact Hs|].
  split; [exact Hlast|]. split; [|split].
  - intros Hp. rewrite stripTrailing_runs by exact Hp.
    now rewrite (TrimRight_keeps Hlast Hp).
  - intros Hno. apply TrimRight_keeps; [|exact Hne].
    now apply lastByte_without_sep.
  - intros n. rewrite stripTrailing_runs by discriminate.
    now rewrite TrimRight_repeat.
Qed.

(** *** util.go: the accessors read one bit each *)

Lemma land_pow2_eqb (a n : Z) :
  0 <= n -> (Z.land a (2 ^ n) =? 0) = negb (Z.testbit a n).
Proof.
  intros Hn. destruct (Z.testbit a n) eqn:Hbit; cbn [negb].
  - apply Z.eqb_neq. intros H0.
    assert (Hb : Z.testbit (Z.land a (2 ^ n)) n = true)
      by (rewrite Z.land_spec, Hbit, Z.pow2_bits_true by exact Hn;
          reflexivity).
    rewrite H0, Z.bits_0 in Hb. discriminate Hb.
  - apply Z.eqb_eq. apply Z.bits_inj'. intros k Hk.
    rewrite Z.land_spec, Z.bits_0, Z.pow2_bits_eqb by exact Hn.
    destruct (Z.eqb_spec n k) as [<-|_];
      [now rewrite Hbit | apply andb_false_r].
Qed.

(** X14. [IsReadOnly] and [IsDir] make one [stat] each and change
    nothing.  When the [stat] succeeds, [IsReadOnly] answers by the
    owner's write bit alone (bit 7 of the mode, octal 0200), whatever the
    group and other bits and the file type, and [IsDir] by the directory
    bit alone (bit 31); when it fails both answer false together with
    the error. *)
Theorem accessors_read_one_bit :
  forall (filepath : string) (w : World),
    match os_Stat (fs w) filepath with
    | inl mode =>
        IsReadOnly filepath w
          = (Done (negb (Z.testbit mode 7), None), logged [EvStat filepath] w)
        /\ IsDir filepath w
          = (Done (Z.testbit mode 31, None), logged [EvStat filepath] w)
    | inr err =>
        IsReadOnly filepath w
          = (Done (false, Some err), logged [EvStat filepath] w)
        /\ IsDir filepath w
          = (Done (false, Some err), logged [EvStat filepath] w)
    end.
Proof.
  intros filepath w. rewrite IsReadOnly_runs, IsDir_runs.
  destruct (os_Stat (fs w) filepath) as [mode|err]; [|split; reflexivity].
  split.
  - change 128 with (2 ^ 7). rewrite land_pow2_eqb by lia.
    unfold Go.FileMode_Perm, Go.ModePerm. rewrite Z.land_spec.
    change (Z.testbit 511 7) with true. now rewrite andb_true_r.
  - unfold Go.FileMode_IsDir. change Go.ModeDir with (2 ^ 31).
    rewrite land_pow2_eqb by lia. now rewrite negb_involutive.
Qed.

(** *** The flags, by membership *)

Lemma plain_args_empty (args : list string) :
  (forall t, In t (filter isFlag args) = false) ->
  filter (fun a => negb (isFlag a)) args = [] ->
  args = [].
Proof.
  intros Hflags Hfiles. destruct args as [|a rest]; [reflexivity|].
  exfalso. cbn [filter] in *. destruct (isFlag a); cbn [negb] in *.
  - specialize (Hflags a). cbn [In] in Hflags.
    rewrite String.eqb_refl in Hflags. discriminate Hflags.
  - discriminate Hfiles.
Qed.

(** X15. Before the marker neither the order of the flags, nor their
    place among the operands, nor their number matters: two command
    lines without marker that name the same flags and list the same
    operands in the same order run alike.  In particular [-f -i] and
    [-i -f] are the same command. *)
Theorem main_ignores_flag_order :
  forall (args1 args2 : list string) (w : World),
    ~ List.In "--" args1 ->
    ~ List.In "--" args2 ->
    (forall t, In t (filter isFlag args1) = In t (filter isFlag args2)) ->
    filter (fun a => negb (isFlag a)) args1
    = filter (fun a => negb (isFlag a)) args2 ->
    main args1 w = main args2 w.
Proof.
  intros args1 args2 w H1 H2 Hflags Hfiles.
  destruct args1 as [|a1 rest1].
  - rewrite (plain_args_empty args2); [reflexivity | |now rewrite <- Hfiles].
    intros t. now rewrite <- Hflags.
  - destruct args2 as [|a2 rest2].
    + rewrite (plain_args_empty (a1 :: rest1));
        [reflexivity | exact Hflags | exact Hfiles].
    + apply main_ext; try discriminate;
        rewrite (parseLoop_plain _ H1), (parseLoop_plain _ H2); cbn [fst snd].
      * now apply readFlags_ext.
      * exact Hfiles.
Qed.

(** X16. [-P] has no effect: taking it out of a command line, anywhere
    before the marker, changes nothing of the run, as long as other
    tokens remain. *)
Theorem flag_P_has_no_effect :
  forall (a b : list string) (w : World),
    ~ List.In "--" a ->
    (a ++ b)%list <> [] ->
    main (a ++ "-P" :: b) w = main (a ++ b) w.
Proof.
  intros a b w Ha Hne. apply main_ext.
  - destruct a; discriminate.
  - exact Hne.
  - rewrite !parseLoop_before by exact Ha.
    rewrite parseLoop_cons.
    change (String.eqb "-P" "--") with false.
    change (isFlag "-P" && negb false) with true. cbv iota.
    rewrite (parseLoop_acc b (_ ++ _)%list), (parseLoop_acc b ([] ++ _)%list).
    cbn [fst]. unfold readFlags. rewrite !In_app.
    cbn [In String.eqb Ascii.eqb Bool.eqb orb].
    rewrite !orb_false_r. reflexivity.
  - rewrite !parseLoop_before by exact Ha.
    rewrite parseLoop_cons.
    change (String.eqb "-P" "--") with false.
    change (isFlag "-P" && negb false) with true. cbv iota.
    rewrite (parseLoop_acc b (_ ++ _)%list), (parseLoop_acc b ([] ++ _)%list).
    reflexivity.
Qed.

Lemma main_swap_flag (a b : list string) (t1 t2 : string) (w : World) :
  ~ List.In "--" a ->
  isFlag t1 = true -> isFlag t2 = true ->
  (forall F X : list string,
     readFlags (F ++ [t1] ++ X) = readFlags (F ++ [t2] ++ X)) ->
  main (a ++ t1 :: b) w = main (a ++ t2 :: b) w.
Proof.
  intros Ha H1 H2 Hread.
  assert (Hparse : forall t, isFlag t = true ->
            parseLoop (a ++ t :: b) [] [] false
            = ((filter isFlag a ++ [t] ++ fst (parseLoop b [] [] false))%list,
               (filter (fun x => negb (isFlag x)) a
                ++ snd (parseLoop b [] [] false))%list)).
  { intros t Ht. rewrite parseLoop_before by exact Ha.
    rewrite (parseLoop_flags_block [t] b)
      by (intros u [<-|[]]; exact Ht).
    rewrite parseLoop_acc. cbn [app]. now rewrite <- app_assoc. }
  apply main_ext.
  - destruct a; discriminate.
  - destruct a; discriminate.
  - rewrite (Hparse t1 H1), (Hparse t2 H2). cbn [fst]. apply Hread.
  - now rewrite (Hparse t1 H1), (Hparse t2 H2).
Qed.

Ltac same_booleans :=
  unfold readFlags; rewrite !In_app;
  cbn [In String.eqb Ascii.eqb Bool.eqb];
  f_equal;
  repeat match goal with
         | |- context [In ?x ?l] => destruct (In x l)
         end;
  reflexivity.

(** X17. The two spellings of a flag are interchangeable: replacing
    [-r] by [-R], or [-h] by [--help], anywhere before the marker leaves
    the run unchanged. *)
Theorem flag_spellings_are_equivalent :
  forall (a b : list string) (w : World),
    ~ List.In "--" a ->
    main (a ++ "-r" :: b) w = main (a ++ "-R" :: b) w
    /\ main (a ++ "-h" :: b) w = main (a ++ "--help" :: b) w.
Proof.
  intros a b w Ha. split.
  - apply main_swap_flag; [exact Ha | reflexivity | reflexivity|].
    intros F X. same_booleans.
  - apply main_swap_flag; [exact Ha | reflexivity | reflexivity|].
    intros F X. same_booleans.
Qed.

(** *** The earlier revision *)

Lemma earlier_VALIDARGS (t : string) :
  In t Earlier.VALIDARGS =
  In t VALIDARGS && negb (String.eqb t "-I") && negb (String.eqb t "-v").
Proof.
  destruct (String.eqb_spec t "-I") as [->|HI]; [reflexivity|].
  destruct (String.eqb_spec t "-v") as [->|Hv]; [reflexivity|].
  apply String.eqb_neq in HI, Hv.
  unfold Earlier.VALIDARGS, VALIDARGS. cbn [In]. rewrite HI, Hv.
  repeat match goal with
         | |- context [String.eqb t ?x] => destruct (String.eqb t x)
         end; reflexivity.
Qed.

Lemma earlier_parseLoop_agrees (args flags files : list string)
  (seen : bool) :
  ~ List.In "-I" args -> ~ List.In "-v" args ->
  Earlier.parseLoop args flags files seen = parseLoop args flags files seen.
Proof.
  revert flags files seen.
  induction args as [|arg rest IH]; intros flags files seen HI Hv;
    [reflexivity|].
  cbn [List.In] in HI, Hv.
  assert (Harg : In arg Earlier.VALIDARGS = In arg VALIDARGS).
  { rewrite earlier_VALIDARGS.
    replace (String.eqb arg "-I") with false
      by (symmetry; apply String.eqb_neq; intuition congruence).
    replace (String.eqb arg "-v") with false
      by (symmetry; apply String.eqb_neq; intuition congruence).
    now rewrite !andb_true_r. }
  rewrite parseLoop_cons. cbn [Earlier.parseLoop]. rewrite Harg.
  fold (isFlag arg).
  destruct (String.eqb arg "--"); [apply IH; tauto|].
  destruct (isFlag arg && negb seen); apply IH; tauto.
Qed.

Lemma earlier_parseLoop_operand (args flags files : list string)
  (seen : bool) (t : string) :
  In t Earlier.VALIDARGS = false -> t <> "--" ->
  List.In t args \/ List.In t files ->
  List.In t (snd (Earlier.parseLoop args flags files seen)).
Proof.
  intros Ht Hm. revert flags files seen.
  induction args as [|arg rest IH]; intros flags files seen Hin.
  - destruct Hin as [[]|Hin]. exact Hin.
  - cbn [Earlier.parseLoop]. cbn [List.In] in Hin.
    destruct (String.eqb_spec arg "--") as [->|Hne].
    + apply IH. intuition congruence.
    + destruct (In arg Earlier.VALIDARGS && negb seen) eqn:Hflag.
      * apply IH. destruct Hin as [[->|Hin]|Hin]; auto.
        rewrite Ht in Hflag. discriminate Hflag.
      * apply IH. rewrite in_app_iff. cbn [List.In]. tauto.
Qed.

(** X18. The earlier revision classifies every command line that holds
    neither [-I] nor [-v] exactly as the current one.  Its recognized
    flags are the current ones but these two, which it takes for
    operands wherever they stand. *)
Theorem earlier_classifier_agrees :
  forall args : list string,
    (~ List.In "-I" args -> ~ List.In "-v" args ->
     Earlier.parseLoop args [] [] false = parseLoop args [] [] false)
    /\ (forall t, In t Earlier.VALIDARGS =
                  In t VALIDARGS && negb (String.eqb t "-I")
                  && negb (String.eqb t "-v"))
    /\ (forall t, t = "-I" \/ t = "-v" -> List.In t args ->
                  List.In t (snd (Earlier.parseLoop args [] [] false))).
Proof.
  intros args. split; [apply earlier_parseLoop_agrees|].
  split; [apply earlier_VALIDARGS|].
  intros t Ht Hin. apply earlier_parseLoop_operand; [| |now left];
    destruct Ht as [-> | ->]; first [reflexivity | discriminate].
Qed.

Lemma earlier_confirm_runs (filepath : string) (w : World) :
  Earlier.confirm true filepath w =
  (Done (nextAnswer w), prompted ("remove " ++ filepath ++ "?" ++ nl) w).
Proof.
  unfold Earlier.confirm, nextAnswer, prompted, nextScan, bind, fmt_Print,
    fmt_Scanln, record, ret.
  cbn [stdin fs log].
  destruct (stdin w) as [|r rest]; cbn [stdin fs log tl stored];
    rewrite <- app_assoc; cbn [app];
    match goal with |- context [In ?x affirmative] =>
      destruct (In x affirmative) end; reflexivity.
Qed.

(** X19. In the earlier revision a failed [stat] is not noticed by the
    directory check: [IsDir] then answers false and its error is looked
    at only in the branch for true.  So the check returns and the operand
    goes on.  With [-i] and a negative answer it is skipped without any
    message and the run continues.  Without [-i] the operand goes
    straight to the normalisation and the read-only check: the empty
    operand panics there, and for any other operand the read-only check
    of the stripped path alone decides what happens next.  For a
    non-empty operand without trailing separator that second [stat] is
    the failed one again: the error is printed there and the run exits
    with status 1. *)
Theorem earlier_directory_check_misses_stat_errors :
  forall (forceFlag interactiveFlag recursiveFlag directoryFlag : bool)
         (targetDir filepath : string) (rest : list string) (w : World)
         (err : Go.error),
    os_Stat (fs w) filepath = inr err ->
    Earlier.directoryCheck recursiveFlag directoryFlag filepath w
      = (Done tt, logged [EvStat filepath] w)
    /\ (interactiveFlag = true -> nextAnswer w = false ->
        Earlier.rangeFiles forceFlag interactiveFlag recursiveFlag
          directoryFlag targetDir (filepath :: rest) w
        = Earlier.rangeFiles forceFlag interactiveFlag recursiveFlag
            directoryFlag targetDir rest
            (prompted ("remove " ++ filepath ++ "?" ++ nl)
                      (logged [EvStat filepath] w)))
    /\ (interactiveFlag = false -> filepath <> "" ->
        lastByte filepath <> "/" ->
        Earlier.rangeFiles forceFlag interactiveFlag recursiveFlag
          directoryFlag targetDir (filepath :: rest) w
        = (Exited 1,
           logged [EvStat filepath; EvStat filepath; EvPrint (err ++ nl)] w))
    /\ (interactiveFlag = false ->
        Earlier.loopBody forceFlag interactiveFlag recursiveFlag
          directoryFlag targetDir filepath w
        = match filepath with
          | EmptyString => (Panicked, logged [EvStat filepath] w)
          | _ =>
              Earlier.checkAndMove forceFlag (Go.TrimRight filepath "/")
                (targetDir ++ "/" ++ lastSegment filepath)
                (logged [EvStat filepath] w)
          end).
Proof.
  intros forceFlag interactiveFlag recursiveFlag directoryFlag targetDir
         filepath rest w err Hstat.
  assert (Hd : Earlier.directoryCheck recursiveFlag directoryFlag filepath w
               = (Done tt, logged [EvStat filepath] w)).
  { unfold Earlier.directoryCheck.
    rewrite (bind_Done _ _ _ (IsDir_runs filepath w)), Hstat. reflexivity. }
  assert (Hgo : Earlier.loopBody forceFlag false recursiveFlag
                  directoryFlag targetDir filepath w
                = bind (stripTrailing filepath)
                    (fun p => Earlier.checkAndMove forceFlag p
                                (targetDir ++ "/" ++ lastSegment filepath))
                    (logged [EvStat filepath] w)).
  { unfold Earlier.loopBody.
    rewrite (bind_Done _ _ _ Hd).
    rewrite (bind_Done _ _ _ (displayName_runs filepath _)).
    unfold Earlier.confirm.
    rewrite (bind_Done _ _ (logged [EvStat filepath] w) (a:=true))
      by reflexivity.
    reflexivity. }
  split; [exact Hd|]. split; [|split].
  - intros -> Hno. cbn [Earlier.rangeFiles].
    assert (Hbody : Earlier.loopBody forceFlag true recursiveFlag
                      directoryFlag targetDir filepath w
                    = (Done tt,
                       prompted ("remove " ++ filepath ++ "?" ++ nl)
                                (logged [EvStat filepath] w))).
    { unfold Earlier.loopBody.
      rewrite (bind_Done _ _ _ Hd).
      rewrite (bind_Done _ _ _ (displayName_runs filepath _)).
      rewrite (bind_Done _ _ _ (earlier_confirm_runs filepath _)).
      rewrite nextAnswer_logged, Hno. reflexivity. }
    rewrite (bind_Done _ _ _ Hbody). reflexivity.
  - intros -> Hne Hlast. cbn [Earlier.rangeFiles].
    apply bind_Exited. rewrite Hgo.
    rewrite (bind_Done _ _ _ (stripTrailing_runs _ Hne)).
    rewrite (TrimRight_keeps Hlast Hne).
    unfold Earlier.checkAndMove.
    rewrite (bind_Done _ _ _ (IsReadOnly_runs filepath _)).
    cbn [fs logged]. rewrite Hstat.
    unfold bind, fmt_Println, fmt_Print, os_Exit, record, logged.
    cbn [fs stdin log]. rewrite <- !app_assoc. reflexivity.
  - intros ->. rewrite Hgo. destruct filepath as [|c s]; [reflexivity|].
    assert (Hne : String c s <> "") by discriminate.
    rewrite (bind_Done _ _ _ (stripTrailing_runs _ Hne)). reflexivity.
Qed.

End More.

(** ** The further properties at work on the small world *)

(** [srm -x a.txt -v]: [-x] is not a flag. *)
Lemma parseArgs_without_marker_witness :
  ["-x"; "a.txt"; "-v"] <> []
  /\ ~ List.In "--" ["-x"; "a.txt"; "-v"]
  /\ parseArgs ["-x"; "a.txt"; "-v"] (Demo.world [])
     = (Done (["-v"], ["-x"; "a.txt"]), Demo.world []).
Proof.
  assert (H1 : ["-x"; "a.txt"; "-v"] <> []) by discriminate.
  assert (H2 : ~ List.In "--" ["-x"; "a.txt"; "-v"])
    by (intros [H|[H|[H|[]]]]; discriminate H).
  split; [exact H1|]. split; [exact H2|].
  exact (proj1 (@parseArgs_without_marker Demo.runtime
                  ["-x"; "a.txt"; "-v"] (Demo.world []) H1 H2)).
Defined.

(** [srm a.txt --help b.txt]. *)
Lemma main_help_witness :
  @os_UserHomeDir Demo.runtime = inl "/home/u"
  /\ In "-h" (flagsOf ["a.txt"; "--help"; "b.txt"])
     || In "--help" (flagsOf ["a.txt"; "--help"; "b.txt"]) = true
  /\ main ["a.txt"; "--help"; "b.txt"] (Demo.world [])
     = (Exited 0,
        logged (EvStat ("/home/u" ++ "/.Trash") :: usageLines) (Demo.world [])).
Proof.
  split; [reflexivity|]. split; [reflexivity|].
  exact (@main_help Demo.runtime ["a.txt"; "--help"; "b.txt"] (Demo.world [])
           "/home/u" eq_refl eq_refl).
Defined.

(** [srm -I -f]. *)
Lemma main_flags_only_witness :
  @os_UserHomeDir Demo.runtime = inl "/home/u"
  /\ ["-I"; "-f"] <> []
  /\ filesOf ["-I"; "-f"] = []
  /\ helpFlag (readFlags (flagsOf ["-I"; "-f"])) = false
  /\ main ["-I"; "-f"] (Demo.world [Token "y"])
     = (Done tt, logged [EvStat ("/home/u" ++ "/.Trash")]
                        (Demo.world [Token "y"])).
Proof.
  assert (H : ["-I"; "-f"] <> []) by discriminate.
  split; [reflexivity|]. split; [exact H|]. split; [reflexivity|].
  split; [reflexivity|].
  exact (@main_flags_only Demo.runtime ["-I"; "-f"] (Demo.world [Token "y"])
           "/home/u" eq_refl H eq_refl eq_refl).
Defined.

(** [srm -f a.txt foo] with an answer pending: it stays pending. *)
Lemma main_reads_nothing_without_interactive_flags_witness :
  In "-i" (flagsOf ["-f"; "a.txt"; "foo"]) = false
  /\ In "-I" (flagsOf ["-f"; "a.txt"; "foo"]) = false
  /\ stdin (snd (main ["-f"; "a.txt"; "foo"] (Demo.world [Token "y"])))
     = stdin (Demo.world [Token "y"]).
Proof.
  split; [reflexivity|]. split; [reflexivity|].
  exact (proj1 (@main_reads_nothing_without_interactive_flags Demo.runtime
                  ["-f"; "a.txt"; "foo"] (Demo.world [Token "y"])
                  eq_refl eq_refl)).
Defined.

(** [srm a.txt b.txt]: no operand is empty. *)
Lemma main_exit_status_witness :
  ~ List.In "" (filesOf ["a.txt"; "b.txt"])
  /\ (exitStatus (fst (main ["a.txt"; "b.txt"] (Demo.world []))) = 0
      \/ exitStatus (fst (main ["a.txt"; "b.txt"] (Demo.world []))) = 1).
Proof.
  assert (H : ~ List.In "" (filesOf ["a.txt"; "b.txt"]))
    by (intros [H|[H|[]]]; discriminate H).
  split; [exact H|].
  exact (proj2 (@main_exit_status Demo.runtime ["a.txt"; "b.txt"]
                  (Demo.world [])) H).
Defined.

(** [srm -f missing.txt a.txt]. *)
Lemma stat_error_is_fatal_witness :
  os_Stat (fs (Demo.world [])) "missing.txt"
  = inr "stat missing.txt: no such file or directory"
  /\ rangeFiles (readFlags ["-f"]) "/tmp" ["missing.txt"; "a.txt"]
       (Demo.world [])
     = (Exited 1,
        logged [EvStat "missing.txt";
                EvPrint ("stat missing.txt: no such file or directory" ++ nl)]
               (Demo.world [])).
Proof.
  split; [reflexivity|].
  exact (proj1 (@stat_error_is_fatal Demo.runtime (readFlags ["-f"]) "/tmp"
                  "missing.txt" ["a.txt"] (Demo.world [])
                  "stat missing.txt: no such file or directory") eq_refl).
Defined.

(** [srm -v a.txt]. *)
Lemma regular_file_is_moved_witness :
  os_Stat (fs (Demo.world [])) "a.txt" = inl Demo.regular
  /\ Go.FileMode_IsDir Demo.regular = false
  /\ Z.land (Go.FileMode_Perm Demo.regular) 128 <> 0
  /\ "a.txt" <> ""
  /\ lastByte "a.txt" <> "/"
  /\ interactiveFlag (readFlags ["-v"]) = false
  /\ loopBody (readFlags ["-v"]) "/tmp" "a.txt" (Demo.world [])
     = (Done tt,
        Demo.mkW (Demo.rename Demo.disk "a.txt" "/tmp/a.txt") []
          [EvStat "a.txt"; EvStat "a.txt"; EvPrint ("a.txt" ++ nl);
           EvRename "a.txt" "/tmp/a.txt"]).
Proof.
  assert (H3 : Z.land (Go.FileMode_Perm Demo.regular) 128 <> 0)
    by discriminate.
  assert (H4 : "a.txt" <> "") by discriminate.
  assert (H5 : lastByte "a.txt" <> "/") by discriminate.
  split; [reflexivity|]. split; [reflexivity|]. split; [exact H3|].
  split; [exact H4|]. split; [exact H5|]. split; [reflexivity|].
  exact (@regular_file_is_moved Demo.runtime (readFlags ["-v"]) "/tmp" "a.txt"
           (Demo.world []) Demo.regular eq_refl eq_refl H3 H4 H5 eq_refl).
Defined.

(** The operand [a/b//]. *)
Lemma stripTrailing_removes_trailing_separators_witness :
  "a/b//" <> ""
  /\ exists (p : string) (k : nat),
       stripTrailing "a/b//" (Demo.world []) = (Done p, Demo.world [])
       /\ "a/b//" = p ++ repeatByte "/" k
       /\ lastByte p <> "/"
       /\ (p <> "" -> stripTrailing p (Demo.world []) = (Done p, Demo.world []))
       /\ (hasByte "/" "a/b//" = false -> p = "a/b//")
       /\ (forall n, stripTrailing (repeatByte "/" (S n)) (Demo.world [])
                     = (Done "", Demo.world [])).
Proof.
  assert (H : "a/b//" <> "") by discriminate.
  split; [exact H|].
  exact (@stripTrailing_removes_trailing_separators Demo.runtime "a/b//"
           (Demo.world []) H).
Defined.

(** [srm -f a.txt -v] and [srm -v -v -f a.txt]. *)
Lemma main_ignores_flag_order_witness :
  ~ List.In "--" ["-f"; "a.txt"; "-v"]
  /\ ~ List.In "--" ["-v"; "-v"; "-f"; "a.txt"]
  /\ main ["-f"; "a.txt"; "-v"] (Demo.world [])
     = main ["-v"; "-v"; "-f"; "a.txt"] (Demo.world []).
Proof.
  assert (H1 : ~ List.In "--" ["-f"; "a.txt"; "-v"])
    by (intros [H|[H|[H|[]]]]; discriminate H).
  assert (H2 : ~ List.In "--" ["-v"; "-v"; "-f"; "a.txt"])
    by (intros [H|[H|[H|[H|[]]]]]; discriminate H).
  assert (H3 : forall t, In t (filter isFlag ["-f"; "a.txt"; "-v"])
                         = In t (filter isFlag ["-v"; "-v"; "-f"; "a.txt"])).
  { intros t. cbn. destruct (String.eqb t "-f"), (String.eqb t "-v");
      reflexivity. }
  split; [exact H1|]. split; [exact H2|].
  exact (@main_ignores_flag_order Demo.runtime ["-f"; "a.txt"; "-v"]
           ["-v"; "-v"; "-f"; "a.txt"] (Demo.world []) H1 H2 H3 eq_refl).
Defined.

(** [srm -v -P a.txt] and [srm -v a.txt]. *)
Lemma flag_P_has_no_effect_witness :
  ~ List.In "--" ["-v"]
  /\ (["-v"] ++ ["a.txt"])%list <> []
  /\ main (["-v"] ++ "-P" :: ["a.txt"]) (Demo.world [])
     = main (["-v"] ++ ["a.txt"]) (Demo.world []).
Proof.
  assert (H1 : ~ List.In "--" ["-v"]) by (intros [H|[]]; discriminate H).
  assert (H2 : (["-v"] ++ ["a.txt"])%list <> []) by discriminate.
  split; [exact H1|]. split; [exact H2|].
  exact (@flag_P_has_no_effect Demo.runtime ["-v"] ["a.txt"] (Demo.world [])
           H1 H2).
Defined.

(** [srm -v -r foo] and [srm -v -R foo]. *)
Lemma flag_spellings_are_equivalent_witness :
  ~ List.In "--" ["-v"]
  /\ main (["-v"] ++ "-r" :: ["foo"]) (Demo.world [])
     = main (["-v"] ++ "-R" :: ["foo"]) (Demo.world []).
Proof.
  assert (H1 : ~ List.In "--" ["-v"]) by (intros [H|[]]; discriminate H).
  split; [exact H1|].
  exact (proj1 (@flag_spellings_are_equivalent Demo.runtime ["-v"] ["foo"]
                  (Demo.world []) H1)).
Defined.

(** [-f a.txt] is classified alike by the two revisions. *)
Lemma earlier_classifier_agrees_witness :
  ~ List.In "-I" ["-f"; "a.txt"]
  /\ ~ List.In "-v" ["-f"; "a.txt"]
  /\ Earlier.parseLoop ["-f"; "a.txt"] [] [] false
     = parseLoop ["-f"; "a.txt"] [] [] false.
Proof.
  assert (H1 : ~ List.In "-I" ["-f"; "a.txt"])
    by (intros [H|[H|[]]]; discriminate H).
  assert (H2 : ~ List.In "-v" ["-f"; "a.txt"])
    by (intros [H|[H|[]]]; discriminate H).
  split; [exact H1|]. split; [exact H2|].
  exact (proj1 (earlier_classifier_agrees ["-f"; "a.txt"]) H1 H2).
Defined.

(** The earlier [srm -i missing.txt a.txt], answered "n". *)
Lemma earlier_directory_check_misses_stat_errors_witness :
  os_Stat (fs (Demo.world [Token "n"])) "missing.txt"
  = inr "stat missing.txt: no such file or directory"
  /\ Earlier.directoryCheck false false "missing.txt" (Demo.world [Token "n"])
     = (Done tt, logged [EvStat "missing.txt"] (Demo.world [Token "n"]))
  /\ Earlier.rangeFiles false true false false "/tmp"
       ["missing.txt"; "a.txt"] (Demo.world [Token "n"])
     = Earlier.rangeFiles false true false false "/tmp" ["a.txt"]
         (Demo.mkW Demo.disk []
            [EvStat "missing.txt"; EvPrint ("remove missing.txt?" ++ nl);
             EvScanln (Token "n")]).
Proof.
  split; [reflexivity|].
  pose proof (@earlier_directory_check_misses_stat_errors Demo.runtime
                false true false false "/tmp" "missing.txt" ["a.txt"]
                (Demo.world [Token "n"])
                "stat missing.txt: no such file or directory" eq_refl)
    as [Hd [Hskip _]].
  split; [exact Hd|].
  exact (Hskip eq_refl eq_refl).
Defined.
